(** * Analitics_MP: the marketplace-analyst bot (bot.py)

    A shallow embedding of [bot.py]: the model-fallback caller
    [call_ai_with_fallback], the four handlers [start], [reset],
    [handle_file] and [handle_text], the conversation store
    [user_conversations], the model cursor [current_model_index] and the
    reply chunking loop.

    Modelling conventions.
    - A Python [str] is the list of its code points ([pystr]); [len] is
      [length] and a slice [s[i:j]] is [take]/[drop].  Literals are written
      as UTF-8 text and decoded by [py].
    - Python integers are [Z]; [%] is [Z.modulo] (sign of the divisor, as in
      Python) and list indexing accepts negative indices ([py_index]).
    - The process-wide globals and the observable effects (requests sent to
      the completion API, messages sent with [reply_text], lines printed)
      are the fields of one [World] record, threaded through every function.
    - The collaborators that live outside the program (the completion API,
      the file download, the spreadsheet parser) are parameters of the
      development; an exception is represented by its [str(e)] text. *)

From Stdlib Require Import ZArith Lia.
From stdpp Require Import base list strings gmap.
From Equations Require Import Equations.

Open Scope Z_scope.

(** ** Python strings *)

Definition codepoint := N.
Definition pystr := list codepoint.

Definition byte_of_ascii (a : Ascii.ascii) : N := Ascii.N_of_ascii a.

Fixpoint bytes_of_string (s : String.string) : list N :=
  match s with
  | String.EmptyString => []
  | String.String a r => byte_of_ascii a :: bytes_of_string r
  end.

Definition cont (b : N) : N := N.land b 63.

(** UTF-8 decoding of the bytes of a source literal into code points. *)
Fixpoint utf8_decode (bs : list N) : pystr :=
  match bs with
  | [] => []
  | b0 :: r =>
    if (b0 <? 128)%N then b0 :: utf8_decode r
    else if (b0 <? 224)%N then
      match r with
      | b1 :: r1 =>
        N.lor (N.shiftl (N.land b0 31) 6) (cont b1) :: utf8_decode r1
      | _ => []
      end
    else if (b0 <? 240)%N then
      match r with
      | b1 :: b2 :: r2 =>
        N.lor (N.shiftl (N.land b0 15) 12)
              (N.lor (N.shiftl (cont b1) 6) (cont b2)) :: utf8_decode r2
      | _ => []
      end
    else
      match r with
      | b1 :: b2 :: b3 :: r3 =>
        N.lor (N.shiftl (N.land b0 7) 18)
              (N.lor (N.shiftl (cont b1) 12)
                     (N.lor (N.shiftl (cont b2) 6) (cont b3))) :: utf8_decode r3
      | _ => []
      end
  end.

Definition py (s : String.string) : pystr := utf8_decode (bytes_of_string s).
Arguments py s%_string : simpl never.

(** The escape [\n]. *)
Definition nl : pystr := [10%N].

(** [str(n)] for a non-negative integer: its decimal digits. *)
Fixpoint digits (u : Decimal.uint) : pystr :=
  match u with
  | Decimal.Nil => []
  | Decimal.D0 r => 48%N :: digits r
  | Decimal.D1 r => 49%N :: digits r
  | Decimal.D2 r => 50%N :: digits r
  | Decimal.D3 r => 51%N :: digits r
  | Decimal.D4 r => 52%N :: digits r
  | Decimal.D5 r => 53%N :: digits r
  | Decimal.D6 r => 54%N :: digits r
  | Decimal.D7 r => 55%N :: digits r
  | Decimal.D8 r => 56%N :: digits r
  | Decimal.D9 r => 57%N :: digits r
  end.

Definition str_of_nat (n : nat) : pystr := digits (Nat.to_uint n).

(** [s.endswith(suffix)]. *)
Definition endswith (s suffix : pystr) : bool :=
  bool_decide (drop (length s - length suffix) s = suffix).

(** [sub in s]: [sub] occurs in [s] as a contiguous run. *)
Definition occurs_in (sub s : pystr) : Prop :=
  ∃ before after, s = before ++ sub ++ after.

(** [s[i:j]] for [0 <= i <= j]. *)
Definition py_slice {A} (s : list A) (i j : nat) : list A :=
  take (j - i) (drop i s).

(** [l[i]], with Python's negative indices; [None] stands for IndexError. *)
Definition py_index {A} (l : list A) (i : Z) : option A :=
  if decide (0 ≤ i) then l !! Z.to_nat i
  else if decide (- Z.of_nat (length l) ≤ i)
       then l !! Z.to_nat (Z.of_nat (length l) + i)
       else None.

(** ** The reply chunking loop

    [for i in range(0, len(m), 4096): reply_text(m[i:i+4096])] *)

(** The values produced by [range(i, stop, step)] for a positive [step]
    (Python refuses [step = 0] with a ValueError before producing anything). *)
Equations? range_up (i stop step : nat) : list nat by wf (stop - i)%nat lt :=
  range_up i stop step with decide (i < stop ∧ 0 < step)%nat => {
    | left _ := i :: range_up (i + step)%nat stop step;
    | right _ := [] }.
Proof. lia. Qed.

Definition CHUNK : nat := 4096.

Definition chunks (m : pystr) : list pystr :=
  (λ i, py_slice m i (i + CHUNK)%nat) <$> range_up 0 (length m) CHUNK.

(** [str(k)] for an integer key. *)
Definition str_of_Z (z : Z) : pystr :=
  match z with
  | Z0 => py "0"
  | Zpos p => digits (Pos.to_uint p)
  | Zneg p => py "-" ++ digits (Pos.to_uint p)
  end.

(** [sep.join(parts)] on a list of strings. *)
Fixpoint join (sep : pystr) (parts : list pystr) : pystr :=
  match parts with
  | [] => []
  | [p] => p
  | p :: rest => p ++ sep ++ join sep rest
  end.

(** ** Data model *)

Inductive Role := system | user | assistant.

(** One [{"role": ..., "content": ...}] dictionary.  The content of an
    assistant record is what the fallback caller returned, which is [None]
    when the response of the model has no content. *)
Record Message := { role : Role; content : option pystr }.

(** The keyword arguments of [client.chat.completions.create]; the
    temperature is the fixed literal 0.7 and is not recorded. *)
Record Request := {
  req_model : pystr;
  req_max_tokens : Z;
  req_messages : list Message }.

(** A call into a collaborator either returns or raises; an exception is
    kept as its [str(e)]. *)
Inductive Outcome (A : Type) :=
| Ok (a : A)
| Exn (e : pystr).
Arguments Ok {A} a.
Arguments Exn {A} e.

(** A column label of a parsed table: a string, or another hashable value
    (a number read from a header cell), of which only the type name
    matters here. *)
Inductive Label :=
| LStr (s : pystr)
| LOther (type_name : pystr).

(** A parsed table, seen through what the handler reads from it:
    [len(df)], [df.columns] and [df.to_string()]. *)
Record DataFrame := {
  df_len : nat;
  df_columns : list Label;
  df_to_string : pystr }.

(** [update.message.document]: the name is optional on the platform. *)
Record Document := {
  file_id : pystr;
  file_name : option pystr }.

(** The globals of the module and the effects observed from outside. *)
Record World := {
  current_model_index : Z;
  user_conversations : gmap Z (list Message);
  requests : list Request;
  sent : list pystr;
  printed : list pystr }.

Definition initial : World :=
  {| current_model_index := 0;
     user_conversations := ∅;
     requests := [];
     sent := [];
     printed := [] |}.

Definition MODELS : list pystr :=
  [ py "meta-llama/llama-2-70b-chat";
    py "meta-llama/llama-3-70b-instruct";
    py "mistralai/mistral-7b-instruct";
    py "meta-llama/llama-2-13b-chat";
    py "nousresearch/nous-hermes-2-mixtral-8x7b-dpo" ].

(** [len(MODELS)] *)
Definition N_MODELS : Z := Z.of_nat (length MODELS).

(** ** Computations over the world that may raise *)

Definition M (A : Type) : Type := World → Outcome A * World.

Definition ret {A} (a : A) : M A := λ w, (Ok a, w).

Definition raise {A} (e : pystr) : M A := λ w, (Exn e, w).

Definition bind {A B} (m : M A) (k : A → M B) : M B :=
  λ w, match m w with
       | (Ok a, w') => k a w'
       | (Exn e, w') => (Exn e, w')
       end.

(** [try: body / except Exception as e: handler(str(e))] *)
Definition try_except {A} (body : M A) (handler : pystr → M A) : M A :=
  λ w, match body w with
       | (Ok a, w') => (Ok a, w')
       | (Exn e, w') => handler e w'
       end.

#[global] Instance M_ret : MRet M := @ret.
#[global] Instance M_bind : MBind M := λ A B k m, bind m k.

Definition reply_text (t : pystr) : M unit := λ w,
  (Ok tt, {| current_model_index := current_model_index w;
             user_conversations := user_conversations w;
             requests := requests w;
             sent := sent w ++ [t];
             printed := printed w |}).

Definition print (t : pystr) : M unit := λ w,
  (Ok tt, {| current_model_index := current_model_index w;
             user_conversations := user_conversations w;
             requests := requests w;
             sent := sent w;
             printed := printed w ++ [t] |}).

Definition set_current_model_index (i : Z) : M unit := λ w,
  (Ok tt, {| current_model_index := i;
             user_conversations := user_conversations w;
             requests := requests w;
             sent := sent w;
             printed := printed w |}).

Definition set_user_conversations (c : gmap Z (list Message)) : M unit := λ w,
  (Ok tt, {| current_model_index := current_model_index w;
             user_conversations := c;
             requests := requests w;
             sent := sent w;
             printed := printed w |}).

Definition log_request (r : Request) : M unit := λ w,
  (Ok tt, {| current_model_index := current_model_index w;
             user_conversations := user_conversations w;
             requests := requests w ++ [r];
             sent := sent w;
             printed := printed w |}).

Definition get_world : M World := λ w, (Ok w, w).

(** [user_conversations[user_id] = []] *)
Definition clear_history (user_id : Z) : M unit :=
  w ← get_world;
  set_user_conversations (<[user_id := []]> (user_conversations w)).

(** [if user_id not in user_conversations: user_conversations[user_id] = []] *)
Definition ensure_history (user_id : Z) : M unit :=
  w ← get_world;
  match user_conversations w !! user_id with
  | Some _ => ret tt
  | None => clear_history user_id
  end.

(** [user_conversations[user_id]]; a missing key is a KeyError. *)
Definition get_history (user_id : Z) : M (list Message) :=
  w ← get_world;
  match user_conversations w !! user_id with
  | Some h => ret h
  | None => raise (str_of_Z user_id)
  end.

(** [user_conversations[user_id].append(record)] *)
Definition append_record (user_id : Z) (record : Message) : M unit :=
  h ← get_history user_id ;
  w ← get_world;
  set_user_conversations (<[user_id := h ++ [record]]> (user_conversations w)).

(** [for x in xs: body(x)] *)
Fixpoint for_each {A} (xs : list A) (body : A → M unit) : M unit :=
  match xs with
  | [] => ret tt
  | x :: rest => body x;; for_each rest body
  end.

(** [", ".join(labels)]: [str.join] raises a TypeError at the first item
    that is not a string. *)
Fixpoint labels_as_strings (i : nat) (labels : list Label) : Outcome (list pystr) :=
  match labels with
  | [] => Ok []
  | LStr s :: rest =>
    match labels_as_strings (S i) rest with
    | Ok ss => Ok (s :: ss)
    | Exn e => Exn e
    end
  | LOther t :: _ =>
    Exn (py "sequence item " ++ str_of_nat i ++ py ": expected str instance, "
           ++ t ++ py " found")
  end.

Definition join_labels (sep : pystr) (labels : list Label) : M pystr := λ w,
  match labels_as_strings 0 labels with
  | Ok ss => (Ok (join sep ss), w)
  | Exn e => (Exn e, w)
  end.

(** [str(x)] of a value that is a string or [None]. *)
Definition str_of_option (o : option pystr) : pystr :=
  match o with
  | Some s => s
  | None => py "None"
  end.

(** [len(x)] of a value that is a string or [None]. *)
Definition len_of_option (o : option pystr) : M nat :=
  match o with
  | Some s => ret (length s)
  | None => raise (py "object of type 'NoneType' has no len()")
  end.

(** [range(n)] *)
Definition py_range (n : nat) : list Z := Z.of_nat <$> seq 0 n.

Section Bot.

(** The text of the system instruction; nothing below looks inside it. *)
Variable SYSTEM_PROMPT : pystr.

(** The completion API: the outcome of the [try] body of one attempt
    (request, then [response.choices[0].message.content]), which may
    depend on how many requests were issued before it.  The content of a
    response is a string or [None]. *)
Variable create : nat → Request → Outcome (option pystr).

(** [document.get_file()] followed by [download_as_bytearray()]. *)
Variable download : Document → Outcome (list Byte.byte).

(** [pd.read_excel] and [pd.read_csv] on the downloaded bytes. *)
Variable read_excel : list Byte.byte → Outcome DataFrame.
Variable read_csv : list Byte.byte → Outcome DataFrame.

Definition lift {A} (o : Outcome A) : M A := λ w, (o, w).

(** [MODELS[current_model_index]] *)
Definition current_model : M pystr :=
    w ← get_world;
    match py_index MODELS (current_model_index w) with
    | Some model => ret model
    | None => raise (py "list index out of range")
    end.

(** The request of one attempt: the system instruction is put in front of
    the conversation. *)
Definition mk_request (model : pystr) (messages : list Message) : Request :=
    let messages_with_system :=
      {| role := system; content := Some SYSTEM_PROMPT |} :: messages in
    {| req_model := model; req_max_tokens := 4000;
       req_messages := messages_with_system |}.

(** The [try] body of one attempt. *)
Definition attempt_create (model : pystr) (messages : list Message)
    : M (Outcome (option pystr)) :=
    w ← get_world;
    log_request (mk_request model messages);;
    ret (create (length (requests w)) (mk_request model messages)).

Definition model_error_line (model e : pystr) : pystr :=
    py "⚠️ Ошибка с моделью " ++ model ++ py ": " ++ e.

Definition all_models_failed (e : pystr) : pystr :=
    py "❌ Все модели недоступны. Последняя ошибка: " ++ e.

(** The body of [for attempt in range(len(MODELS))], iterated over the
    remaining values of [attempt]; running off the end of the loop is
    [return None, None]. *)
Fixpoint fallback_loop (attempts : list Z) (messages : list Message)
    : M (option pystr * option pystr) :=
    match attempts with
    | [] => ret (None, None)
    | attempt :: rest =>
      model ← current_model;
      r ← attempt_create model messages;
      match r with
      | Ok content => ret (content, Some model)
      | Exn e =>
        print (model_error_line model e);;
        w ← get_world;
        set_current_model_index ((current_model_index w + 1) `mod` N_MODELS);;
        if decide (attempt = N_MODELS - 1)
        then raise (all_models_failed e)
        else fallback_loop rest messages
      end
    end.

Definition call_ai_with_fallback (messages : list Message)
    : M (option pystr * option pystr) :=
    fallback_loop (py_range (length MODELS)) messages.

Definition GREETING : pystr :=
    py "👋 Привет! Я ваш аналитик маркетплейсов." ++ nl ++ nl ++
    py "Я помогу вам разобраться в выгрузках данных с Ozon, Wildberries, Яндекс.Маркета и других платформ."
      ++ nl ++ nl ++
    py "Просто отправьте мне:" ++ nl ++
    py "📁 Excel или CSV файлы с данными маркетплейса" ++ nl ++
    py "❓ Или напишите вопрос по данным, которые вы ранее отправили" ++ nl ++ nl ++
    py "Я проанализирую всё и дам конкретные рекомендации!".

Definition start (user_id : Z) : M unit :=
    clear_history user_id;;
    reply_text GREETING.

Definition UNSUPPORTED : pystr :=
    py "❌ Поддерживаются только файлы Excel (.xlsx, .xls) и CSV".

(** [filename.endswith(suffix)] on the optional file name. *)
Definition name_endswith (filename : option pystr) (suffix : pystr) : M bool :=
    match filename with
    | Some name => ret (endswith name suffix)
    | None => raise (py "'NoneType' object has no attribute 'endswith'")
    end.

(** [a or b], where [b] is evaluated only when [a] is false. *)
Definition py_or (a b : M bool) : M bool :=
    x ← a; if (x : bool) then ret true else b.

(** Lines 152-155: the preview of a parsed table. *)
Definition render_preview (filename : pystr) (df : DataFrame) : M pystr :=
    let data_preview := py "Файл: " ++ filename ++ nl ++ nl in
    let data_preview := data_preview ++
      py "Размер: " ++ str_of_nat (df_len df) ++ py " строк, "
        ++ str_of_nat (length (df_columns df)) ++ py " колонок" ++ nl ++ nl in
    columns ← join_labels (py ", ") (df_columns df);
    let data_preview := data_preview ++ py "Колонки: " ++ columns ++ nl ++ nl in
    ret (data_preview ++ py "Данные:" ++ nl ++ df_to_string df).

(** The end of both message handlers: store the reply in the history,
    send it in pieces of 4096 characters, print which model answered. *)
Definition deliver (user_id : Z) (done_by : pystr)
      (assistant_message used_model : option pystr) : M unit :=
    append_record user_id {| role := assistant; content := assistant_message |};;
    n ← len_of_option assistant_message;
    for_each (range_up 0 n CHUNK)
      (λ i, reply_text (py_slice (default [] assistant_message) i (i + CHUNK)%nat));;
    print (done_by ++ str_of_option used_model).

(** The part of both message handlers that follows the append of the user
    record: call the models with the user's history, then deliver. *)
Definition answer (user_id : Z) (done_by : pystr) : M unit :=
    history ← get_history user_id;
    '(assistant_message, used_model) ← call_ai_with_fallback history;
    deliver user_id done_by assistant_message used_model.

(** What [handle_file] does after the format dispatch succeeded. *)
Definition analyse_table (user_id : Z) (filename : pystr) (df : DataFrame)
    : M unit :=
    data_preview ← render_preview filename df;
    reply_text (py "⏳ Анализирую данные... (это может занять некоторое время)");;
    append_record user_id
      {| role := user;
         content := Some (py "Вот мои данные с маркетплейса:" ++ nl ++ nl
                            ++ data_preview) |};;
    answer user_id (py "✅ Анализ выполнен моделью: ").

Definition handle_file (user_id : Z) (document : Document) : M unit :=
    ensure_history user_id;;
    try_except
      (file_bytes ← lift (download document);
       let filename := file_name document in
       is_excel ← py_or (name_endswith filename (py ".xlsx"))
                        (name_endswith filename (py ".xls"));
       if (is_excel : bool) then
         df ← lift (read_excel file_bytes);
         analyse_table user_id (default [] filename) df
       else
         is_csv ← name_endswith filename (py ".csv");
         if (is_csv : bool) then
           df ← lift (read_csv file_bytes);
           analyse_table user_id (default [] filename) df
         else
           reply_text UNSUPPORTED)
      (λ e, reply_text (py "❌ Ошибка при обработке файла: " ++ e)).

Definition handle_text (user_id : Z) (user_text : pystr) : M unit :=
    ensure_history user_id;;
    append_record user_id {| role := user; content := Some user_text |};;
    try_except
      (reply_text (py "⏳ Ищу ответ...");;
       answer user_id (py "✅ Ответ от модели: "))
      (λ e, reply_text (py "❌ Ошибка: " ++ e ++ nl
                          ++ py "Проверьте OPENROUTER_API_KEY в файле .env")).

Definition reset (user_id : Z) : M unit :=
    clear_history user_id;;
    reply_text (py "🔄 История диалога очищена. Готов к новому анализу!").

Definition models : M unit :=
    let models_list := join nl ((λ m, py "• " ++ m) <$> MODELS) in
    reply_text (py "📋 Доступные модели:" ++ nl ++ nl ++ models_list).

(** The events routed by the dispatcher set up in [main]. *)
Inductive Event :=
  | StartCommand (user_id : Z)
  | ResetCommand (user_id : Z)
  | ModelsCommand
  | FileReceived (user_id : Z) (document : Document)
  | TextReceived (user_id : Z) (user_text : pystr).

Definition handler (ev : Event) : M unit :=
    match ev with
    | StartCommand u => start u
    | ResetCommand u => reset u
    | ModelsCommand => models
    | FileReceived u d => handle_file u d
    | TextReceived u t => handle_text u t
    end.

(** The world after one event has been handled. *)
Definition handle (w : World) (ev : Event) : World := (handler ev w).2.

(** The world after a sequence of events, oldest first. *)
Definition run (evs : list Event) (w : World) : World := foldl handle w evs.

End Bot.

(** The model found at a cursor position (the empty name off the list). *)
Definition model_at (i : Z) : pystr := default [] (py_index MODELS i).

(** The world right after a request was issued. *)
Definition requested (w : World) (r : Request) : World :=
  {| current_model_index := current_model_index w;
     user_conversations := user_conversations w;
     requests := requests w ++ [r];
     sent := sent w;
     printed := printed w |}.

(** The world right after a failed attempt: the request was issued, the
    error line printed and the cursor moved on. *)
Definition failed (w : World) (r : Request) (line : pystr) : World :=
  {| current_model_index := (current_model_index w + 1) `mod` N_MODELS;
     user_conversations := user_conversations w;
     requests := requests w ++ [r];
     sent := sent w;
     printed := printed w ++ [line] |}.

(** The cursor is a position of the model list. *)
Definition cursor_ok (w : World) : Prop :=
  0 ≤ current_model_index w < N_MODELS.

(** The requests of [n] consecutive attempts that start with the cursor at
    [c]: one per cursor position, in cursor order, wrapping at the end of the
    model list. *)
Definition attempted (SYSTEM_PROMPT : pystr) (c : Z) (messages : list Message)
    (n : nat) : list Request :=
  (λ i : nat, mk_request SYSTEM_PROMPT (model_at ((c + Z.of_nat i) `mod` N_MODELS)) messages)
    <$> seq 0 n.

(** A call of the fallback caller made in world [w] tries first the model at
    position [p]: its first request, the one that follows those already
    issued, goes to that model. *)
Definition starts_at (SYSTEM_PROMPT : pystr) (create : nat → Request → Outcome (option pystr))
    (messages : list Message) (w : World) (p : Z) : Prop :=
  requests (call_ai_with_fallback SYSTEM_PROMPT create messages w).2
    !! length (requests w)
  = Some (mk_request SYSTEM_PROMPT (model_at p) messages).

(** A computation keeps a property of the world, whether it returns or
    raises. *)
Definition preserves {A} (P : World → Prop) (m : M A) : Prop :=
  ∀ w, P w → P (m w).2.

(** The user has an entry in the conversation mapping. *)
Definition has_history (user_id : Z) (w : World) : Prop :=
  is_Some (user_conversations w !! user_id).

(** The world after the fallback caller has been invoked once for each of the
    given histories, oldest first. *)
Definition calls (SYSTEM_PROMPT : pystr) (create : nat → Request → Outcome (option pystr))
    (histories : list (list Message)) (w : World) : World :=
  foldl (λ w messages, (call_ai_with_fallback SYSTEM_PROMPT create messages w).2)
        w histories.

(** A completion API whose first [k] requests fail and whose later ones
    succeed. *)
Definition flaky (k : nat) : nat → Request → Outcome (option pystr) :=
  λ tick _, if (tick <? k)%nat then Exn (py "down") else Ok (Some (py "ok")).

(** A completion API that always answers, with a response that has no
    content. *)
Definition silent : nat → Request → Outcome (option pystr) := λ _ _, Ok None.

(** Sample inputs: two documents, a download that succeeds and one that
    fails, a parser that fails, and a table of 10 rows whose first header
    cell held the number 2023. *)
Definition data_txt : Document :=
  {| file_id := py "f1"; file_name := Some (py "data.txt") |}.

Definition data_xlsx : Document :=
  {| file_id := py "f2"; file_name := Some (py "data.xlsx") |}.

Definition fetch_ok : Document → Outcome (list Byte.byte) := λ _, Ok [].

Definition fetch_fails : Document → Outcome (list Byte.byte) :=
  λ _, Exn (py "Timed out").

Definition no_table : list Byte.byte → Outcome DataFrame :=
  λ _, Exn (py "no table").

Definition numeric_header_table : DataFrame :=
  {| df_len := 10;
     df_columns := [LOther (py "int"); LStr (py "b"); LStr (py "c")];
     df_to_string := py "2023 b c" |}.

Definition text_header_table : DataFrame :=
  {| df_len := 10;
     df_columns := [LStr (py "a"); LStr (py "b"); LStr (py "c")];
     df_to_string := py "a b c" |}.

(** The world with one user's history replaced, and the world with more
    messages sent. *)
Definition stored (w : World) (user_id : Z) (h : list Message) : World :=
  {| current_model_index := current_model_index w;
     user_conversations := <[user_id := h]> (user_conversations w);
     requests := requests w;
     sent := sent w;
     printed := printed w |}.

Definition replied (w : World) (ts : list pystr) : World :=
  {| current_model_index := current_model_index w;
     user_conversations := user_conversations w;
     requests := requests w;
     sent := sent w ++ ts;
     printed := printed w |}.

(** [not x] for a value that is a string or [None]: true for [None] and
    for the empty string. *)
Definition falsy (o : option pystr) : bool :=
  match o with
  | None => true
  | Some [] => true
  | Some (_ :: _) => false
  end.

Definition TOKEN_MISSING : pystr :=
  py "❌ Переменная окружения TELEGRAM_BOT_TOKEN не установлена! Проверьте файл .env".

Definition API_KEY_MISSING : pystr :=
  py "❌ Переменная окружения OPENROUTER_API_KEY не установлена! Проверьте файл .env".

(** [main], up to the point where it hands over to the dispatcher
    ([application.run_polling()], which is [run]): the two environment
    variables are read with [os.getenv], given here as a function; a
    ValueError is kept as its message. *)
Definition main (getenv : pystr → option pystr) : M unit :=
  let token := getenv (py "TELEGRAM_BOT_TOKEN") in
  if falsy token then raise TOKEN_MISSING
  else
    let api_key := getenv (py "OPENROUTER_API_KEY") in
    if falsy api_key then raise API_KEY_MISSING
    else
      print (py "🤖 Бот запущен с OpenRouter!");;
      print (py "✅ Доступно " ++ str_of_nat (length MODELS)
               ++ py " моделей с автоматическим переключением");;
      print (py "📋 Команды: /start, /reset, /models").

(** An environment variable that is set to a non-empty value. *)
Definition is_set (o : option pystr) : Prop := ∃ s, o = Some s ∧ s ≠ [].

(** The user an event comes from; the models command touches no user. *)
Definition event_user (ev : Event) : option Z :=
  match ev with
  | StartCommand u => Some u
  | ResetCommand u => Some u
  | ModelsCommand => None
  | FileReceived u _ => Some u
  | TextReceived u _ => Some u
  end.

(** Start and reset are the two events that overwrite a history. *)
Definition clears_history (ev : Event) : bool :=
  match ev with
  | StartCommand _ | ResetCommand _ => true
  | _ => false
  end.

(** The entry of a user in the conversation mapping has a given value, and:
    the history of a user starts with a given list of records. *)
Definition history_is (u : Z) (x : option (list Message)) (w : World) : Prop :=
  user_conversations w !! u = x.

Definition extends (u : Z) (h : list Message) (w : World) : Prop :=
  ∃ tail, user_conversations w !! u = Some (h ++ tail).

(** The texts the two message handlers send: the progress notices and the
    failure reports built in their [except] branches. *)
Definition TEXT_NOTICE : pystr := py "⏳ Ищу ответ...".

Definition FILE_NOTICE : pystr :=
  py "⏳ Анализирую данные... (это может занять некоторое время)".

Definition text_error (e : pystr) : pystr :=
  py "❌ Ошибка: " ++ e ++ nl ++ py "Проверьте OPENROUTER_API_KEY в файле .env".

Definition file_error (e : pystr) : pystr :=
  py "❌ Ошибка при обработке файла: " ++ e.

(** The text of the TypeError raised by [len(None)]. *)
Definition NO_LEN : pystr := py "object of type 'NoneType' has no len()".

(** The parser that the suffix of a file name selects in [handle_file], applied
    to the downloaded bytes; [None] when no suffix is recognized. *)
Definition loaded_by (read_excel read_csv : list Byte.byte → Outcome DataFrame)
    (name : pystr) (file_bytes : list Byte.byte) : option (Outcome DataFrame) :=
  if endswith name (py ".xlsx") || endswith name (py ".xls")
  then Some (read_excel file_bytes)
  else if endswith name (py ".csv") then Some (read_csv file_bytes)
  else None.

(** The text built by lines 152-155 for a table whose column labels are the
    strings [columns]. *)
Definition preview_of (filename : pystr) (df : DataFrame) (columns : list pystr)
    : pystr :=
  py "Файл: " ++ filename ++ nl ++ nl
    ++ py "Размер: " ++ str_of_nat (df_len df) ++ py " строк, "
    ++ str_of_nat (length (df_columns df)) ++ py " колонок" ++ nl ++ nl
    ++ py "Колонки: " ++ join (py ", ") columns ++ nl ++ nl
    ++ py "Данные:" ++ nl ++ df_to_string df.

(** What [handle_file] reaches before it stores anything: on the left the
    one message it sends when it stops there (the failure report of the
    download, of a missing file name, of the parser or of the rendering, or
    the unsupported-format message), on the right the preview it has
    rendered. *)
Definition preview_or_reply (download : Document → Outcome (list Byte.byte))
    (read_excel read_csv : list Byte.byte → Outcome DataFrame) (d : Document)
    : pystr + pystr :=
  match download d with
  | Exn e => inl (file_error e)
  | Ok file_bytes =>
    match file_name d with
    | None => inl (file_error (py "'NoneType' object has no attribute 'endswith'"))
    | Some name =>
      match loaded_by read_excel read_csv name file_bytes with
      | None => inl UNSUPPORTED
      | Some (Exn e) => inl (file_error e)
      | Some (Ok df) =>
        match labels_as_strings 0 (df_columns df) with
        | Exn e => inl (file_error e)
        | Ok columns => inr (preview_of name df columns)
        end
      end
    end
  end.

(** The user record that [handle_file] stores for a preview. *)
Definition file_record (data_preview : pystr) : Message :=
  {| role := user;
     content := Some (py "Вот мои данные с маркетплейса:" ++ nl ++ nl ++ data_preview) |}.

(** A stored record: a user record with its text, or an assistant record
    (whose content is what the model returned). *)
Definition well_formed (m : Message) : Prop :=
  (role m = user ∧ is_Some (content m)) ∨ role m = assistant.

(** Every stored history holds well-formed records only. *)
Definition histories_well_formed (w : World) : Prop :=
  ∀ u h, user_conversations w !! u = Some h → Forall well_formed h.

(** [ceil(a / b)] on naturals. *)
Definition ceil_div (a b : nat) : nat := ((a + b - 1) / b)%nat.

(** * Properties *)

Example endswith_ex : endswith (py "data.xlsx") (py ".xlsx") = true.
Proof. reflexivity. Qed.

Example py_cyrillic : py "Файл" = [1060; 1072; 1081; 1083]%N.
Proof. reflexivity. Qed.

Example py_emoji : py "⚠️❌👋" = [0x26a0; 0xfe0f; 0x274c; 0x1f44b]%N.
Proof. reflexivity. Qed.

Example range_ex : range_up 0 10 4 = [0; 4; 8]%nat.
Proof. reflexivity. Qed.

(** ** The chunking loop *)

Section Chunks.
  Local Open Scope nat_scope.

Lemma ceil_div_0 b : 0 < b → ceil_div 0 b = 0.
  Proof. intros Hb. unfold ceil_div. apply Nat.div_small. lia. Qed.

Lemma ceil_div_step a b : 0 < a → 0 < b → ceil_div a b = S (ceil_div (a - b) b).
  Proof.
    intros Ha Hb. unfold ceil_div.
    destruct (decide (b ≤ a)) as [Hle|Hgt].
    - replace (a + b - 1) with ((a - b + b - 1) + 1 * b) by lia.
      rewrite Nat.div_add by lia. lia.
    - replace (a - b) with 0 by lia.
      rewrite (Nat.div_small (0 + b - 1)) by lia.
      symmetry. apply (Nat.div_unique _ _ 1 (a - 1)); lia.
  Qed.

(** [ceil_div a b] is the least number of blocks of size [b] covering [a]. *)
Lemma ceil_div_spec a b :
    0 < b → a ≤ ceil_div a b * b ∧ (0 < a → (ceil_div a b - 1) * b < a).
  Proof.
    intros Hb. unfold ceil_div.
    pose proof (Nat.div_mod_eq (a + b - 1) b) as E.
    pose proof (Nat.mod_upper_bound (a + b - 1) b ltac:(lia)) as U.
    split; [nia|]. intros Ha.
    assert (1 ≤ (a + b - 1) / b) by (apply Nat.div_le_lower_bound; lia).
    nia.
  Qed.

Lemma range_up_step i stop step :
    range_up i stop step =
    if decide (i < stop ∧ 0 < step) then i :: range_up (i + step) stop step else [].
  Proof. rewrite range_up_equation_1. destruct (decide _); reflexivity. Qed.

(** The loop variable takes the values [i, i+step, i+2*step, ...] below [stop]. *)
Lemma range_up_closed step :
    0 < step → ∀ d i stop, stop - i = d →
    range_up i stop step = (λ k, i + k * step) <$> seq 0 (ceil_div d step).
  Proof.
    intros Hs d. induction d as [d IH] using lt_wf_ind. intros i stop Hd.
    rewrite range_up_step. destruct (decide _) as [[Hlt _]|Hn].
    - rewrite (ceil_div_step d step) by lia. cbn [seq fmap list_fmap].
      f_equal; [lia|].
      rewrite (IH (d - step)) with (stop := stop) by lia.
      rewrite <- fmap_S_seq, <- list_fmap_compose.
      apply list_fmap_ext. intros _ k _. simpl. lia.
    - replace d with 0 by lia. rewrite ceil_div_0 by done. reflexivity.
  Qed.

Lemma chunks_closed (m : pystr) :
    chunks m = (λ k, take CHUNK (drop (k * CHUNK) m)) <$> seq 0 (ceil_div (length m) CHUNK).
  Proof.
    unfold chunks. rewrite (range_up_closed CHUNK ltac:(unfold CHUNK; lia) (length m) 0 (length m)) by lia.
    rewrite <- list_fmap_compose. apply list_fmap_ext. intros _ k _. simpl.
    unfold py_slice. f_equal. lia.
  Qed.

Lemma concat_blocks {A} (c : nat) (m : list A) :
    0 < c → ∀ n i, length m - i ≤ n * c →
    concat ((λ k, take c (drop (i + k * c) m)) <$> seq 0 n) = drop i m.
  Proof.
    intros Hc n. induction n as [|n IH]; intros i Hn.
    - simpl. symmetry. apply drop_ge. lia.
    - cbn [seq fmap list_fmap concat]. rewrite <- fmap_S_seq, <- list_fmap_compose.
      assert (E : ((λ k, take c (drop (i + k * c) m)) ∘ S) <$> seq 0 n
                  = (λ k, take c (drop ((i + c) + k * c) m)) <$> seq 0 n).
      { apply list_fmap_ext. intros _ k _. simpl. do 2 f_equal. lia. }
      rewrite E, IH by lia. rewrite Nat.add_0_r.
      rewrite <- (take_drop c (drop i m)) at 2. rewrite drop_drop. reflexivity.
  Qed.

End Chunks.

(** The slices taken by the chunking loop: for every string [m] there are
    exactly ceil(len(m)/4096) of them, each at most 4096 characters long, the
    k-th being the characters from position 4096*k on, and joined in order
    they give back [m]. *)
Lemma chunks_cover_input (m : pystr) :
  CHUNK = 4096%nat ∧
  length (chunks m) = ceil_div (length m) CHUNK ∧
  Forall (λ c, (length c ≤ CHUNK)%nat) (chunks m) ∧
  (∀ k, (k < length (chunks m))%nat →
        chunks m !! k = Some (py_slice m (k * CHUNK) (k * CHUNK + CHUNK))) ∧
  concat (chunks m) = m.
Proof.
  assert (HC : (0 < CHUNK)%nat) by (unfold CHUNK; lia).
  split; [reflexivity|]. rewrite chunks_closed.
  split; [by rewrite length_fmap, length_seq|].
  split; [|split].
  - apply Forall_fmap, Forall_forall. intros k _. simpl.
    rewrite length_take. apply Nat.le_min_l.
  - intros k Hk. rewrite length_fmap, length_seq in Hk.
    rewrite list_lookup_fmap, lookup_seq_lt by done. simpl.
    unfold py_slice. do 2 f_equal. lia.
  - rewrite <- (drop_0 m) at 2.
    rewrite <- (concat_blocks CHUNK m HC (ceil_div (length m) CHUNK) 0%nat).
    + reflexivity.
    + destruct (ceil_div_spec (length m) CHUNK HC) as [Hle _]. revert Hle.
      generalize (ceil_div (length m) CHUNK * CHUNK)%nat. intros; lia.
Qed.

(** ** The fallback caller *)

Lemma N_MODELS_eq : N_MODELS = 5.
Proof. reflexivity. Qed.

Lemma N_MODELS_pos : 0 < N_MODELS.
Proof. rewrite N_MODELS_eq. lia. Qed.

Lemma py_index_model_at (i : Z) :
  0 ≤ i < N_MODELS → py_index MODELS i = Some (model_at i).
Proof.
  intros Hi. unfold model_at, py_index. rewrite decide_True by lia.
  destruct (lookup_lt_is_Some_2 MODELS (Z.to_nat i)) as [m Hm].
  - unfold N_MODELS in Hi. lia.
  - by rewrite Hm.
Qed.

Lemma initial_cursor_ok : cursor_ok initial.
Proof. unfold cursor_ok. simpl. pose proof N_MODELS_pos. lia. Qed.

Lemma MODELS_NoDup : NoDup MODELS.
Proof. apply (bool_decide_unpack (NoDup MODELS)). vm_compute. exact I. Qed.

Lemma model_at_inj (p q : Z) :
  0 ≤ p < N_MODELS → 0 ≤ q < N_MODELS → model_at p = model_at q → p = q.
Proof.
  intros Hp Hq E.
  pose proof (py_index_model_at p Hp) as Ep. pose proof (py_index_model_at q Hq) as Eq.
  unfold py_index in Ep, Eq.
  rewrite decide_True in Ep by lia. rewrite decide_True in Eq by lia.
  rewrite <- E in Eq.
  pose proof (NoDup_lookup _ _ _ _ MODELS_NoDup Ep Eq). lia.
Qed.

Lemma model_at_elem (i : Z) : 0 ≤ i < N_MODELS → model_at i ∈ MODELS.
Proof.
  intros Hi. apply list_elem_of_lookup. exists (Z.to_nat i).
  pose proof (py_index_model_at i Hi) as E. unfold py_index in E.
  by rewrite decide_True in E by lia.
Qed.

Lemma last_py_range : last (py_range (length MODELS)) = Some (N_MODELS - 1).
Proof. reflexivity. Qed.

Section Fallback.
Variable SYSTEM_PROMPT : pystr.
Variable create : nat → Request → Outcome (option pystr).

Local Abbreviation request_for := (mk_request SYSTEM_PROMPT).
Local Abbreviation loop := (fallback_loop SYSTEM_PROMPT create).
Local Abbreviation call := (call_ai_with_fallback SYSTEM_PROMPT create).

Lemma current_model_ok w :
    cursor_ok w → current_model w = (Ok (model_at (current_model_index w)), w).
  Proof.
    intros Hc. unfold current_model, get_world, mbind, M_bind, bind.
    by rewrite py_index_model_at.
  Qed.

(** One successful attempt ends the loop. *)
Lemma fallback_loop_ok attempt rest messages w text :
    cursor_ok w →
    create (length (requests w))
           (request_for (model_at (current_model_index w)) messages) = Ok text →
    loop (attempt :: rest) messages w =
    (Ok (text, Some (model_at (current_model_index w))),
     requested w (request_for (model_at (current_model_index w)) messages)).
  Proof.
    intros Hc Hok. cbn [fallback_loop]. unfold mbind at 1, M_bind at 1, bind at 1.
    rewrite current_model_ok by done.
    unfold attempt_create, get_world, log_request, mbind, M_bind, bind, mret, M_ret, ret.
    cbn [requests]. rewrite Hok. reflexivity.
  Qed.

(** One failed attempt moves the cursor on; the last value of [attempt]
    raises, any other one goes round the loop again. *)
Lemma fallback_loop_fail attempt rest messages w e :
    cursor_ok w →
    create (length (requests w))
           (request_for (model_at (current_model_index w)) messages) = Exn e →
    loop (attempt :: rest) messages w =
    let w' := failed w (request_for (model_at (current_model_index w)) messages)
                     (model_error_line (model_at (current_model_index w)) e) in
    if decide (attempt = N_MODELS - 1)
    then (Exn (all_models_failed e), w')
    else loop rest messages w'.
  Proof.
    intros Hc Hex. cbn [fallback_loop]. unfold mbind at 1, M_bind at 1, bind at 1.
    rewrite current_model_ok by done.
    unfold attempt_create, get_world, log_request, print, set_current_model_index,
      mbind, M_bind, bind, mret, M_ret, ret.
    cbn [requests]. rewrite Hex. cbn [current_model_index].
    destruct (decide _); reflexivity.
  Qed.

Lemma failed_cursor_ok w r line : cursor_ok (failed w r line).
  Proof. unfold cursor_ok. simpl. apply Z.mod_pos_bound, N_MODELS_pos. Qed.

Lemma attempted_S c messages n :
    attempted SYSTEM_PROMPT c messages (S n) =
    request_for (model_at (c `mod` N_MODELS)) messages
      :: attempted SYSTEM_PROMPT ((c + 1) `mod` N_MODELS) messages n.
  Proof.
    unfold attempted. cbn [seq fmap list_fmap]. f_equal.
    - by rewrite Z.add_0_r.
    - rewrite <- fmap_S_seq, <- list_fmap_compose. apply list_fmap_ext.
      intros _ i _. simpl. rewrite Zplus_mod_idemp_l. do 3 f_equal. lia.
  Qed.

Lemma attempted_length c messages n :
    length (attempted SYSTEM_PROMPT c messages n) = n.
  Proof. unfold attempted. by rewrite length_fmap, length_seq. Qed.

Lemma py_range_from (j n : nat) :
    (j < n)%nat →
    Z.of_nat <$> seq j (n - j) = Z.of_nat j :: (Z.of_nat <$> seq (S j) (n - S j)).
  Proof.
    intros Hj. replace (n - j)%nat with (S (n - S j)) by lia. reflexivity.
  Qed.

(** The loop, entered at [attempt = j], when the next [K] attempts fail and
    the one after them succeeds. *)
Lemma fallback_loop_first_success messages text K :
    ∀ (j : nat) w,
    cursor_ok w →
    (j + K < length MODELS)%nat →
    (∀ i, (i < K)%nat → ∃ e,
       create (length (requests w) + i)%nat
         (request_for (model_at ((current_model_index w + Z.of_nat i) `mod` N_MODELS))
                      messages) = Exn e) →
    create (length (requests w) + K)%nat
      (request_for (model_at ((current_model_index w + Z.of_nat K) `mod` N_MODELS))
                   messages) = Ok text →
    ∃ w',
      loop (Z.of_nat <$> seq j (length MODELS - j)) messages w =
        (Ok (text,
             Some (model_at ((current_model_index w + Z.of_nat K) `mod` N_MODELS))), w')
      ∧ current_model_index w' = (current_model_index w + Z.of_nat K) `mod` N_MODELS
      ∧ requests w' = requests w
                        ++ attempted SYSTEM_PROMPT (current_model_index w) messages (S K)
      ∧ user_conversations w' = user_conversations w
      ∧ sent w' = sent w.
  Proof.
    induction K as [|K IH]; intros j w Hc Hj Hfail Hok.
    - rewrite Z.add_0_r, Z.mod_small in Hok |- * by done.
      rewrite Nat.add_0_r in Hok.
      rewrite py_range_from by lia. eexists. split.
      { apply fallback_loop_ok; done. }
      unfold attempted. simpl. rewrite Z.add_0_r, Z.mod_small by done. done.
    - destruct (Hfail 0%nat ltac:(lia)) as [e He].
      rewrite Z.add_0_r, Z.mod_small, Nat.add_0_r in He by done.
      rewrite py_range_from by lia.
      rewrite (fallback_loop_fail _ _ _ _ e) by done. cbv zeta.
      rewrite decide_False by (unfold N_MODELS; lia).
      set (w1 := failed w _ _).
      destruct (IH (S j) w1) as (w' & Hrun & Hcur & Hreq & Hconv & Hsent).
      + apply failed_cursor_ok.
      + lia.
      + intros i Hi. destruct (Hfail (S i) ltac:(lia)) as [e' He']. exists e'.
        subst w1. cbn [requests current_model_index failed].
        rewrite length_app. cbn [length]. rewrite Zplus_mod_idemp_l.
        replace (length (requests w) + 1 + i)%nat with (length (requests w) + S i)%nat by lia.
        replace (current_model_index w + 1 + Z.of_nat i) with (current_model_index w + Z.of_nat (S i)) by lia.
        done.
      + subst w1. cbn [requests current_model_index failed].
        rewrite length_app. cbn [length]. rewrite Zplus_mod_idemp_l.
        replace (length (requests w) + 1 + K)%nat with (length (requests w) + S K)%nat by lia.
        replace (current_model_index w + 1 + Z.of_nat K) with (current_model_index w + Z.of_nat (S K)) by lia.
        done.
      + exists w'. subst w1. cbn [requests current_model_index failed user_conversations sent] in *.
        rewrite Zplus_mod_idemp_l in Hrun, Hcur.
        replace (current_model_index w + 1 + Z.of_nat K) with (current_model_index w + Z.of_nat (S K)) in * by lia.
        split_and!; try done.
        rewrite Hreq, (attempted_S _ _ (S K)), <- app_assoc.
        rewrite (Z.mod_small (current_model_index w)) by done. done.
  Qed.

(** The loop, entered at [attempt = j], when every remaining attempt
    fails: the last one raises, with the text of its own error. *)
Lemma fallback_loop_all_fail messages K :
    ∀ (errs : nat → pystr) (j : nat) w,
    cursor_ok w →
    (0 < K)%nat →
    (j + K = length MODELS)%nat →
    (∀ i, (i < K)%nat →
       create (length (requests w) + i)%nat
         (request_for (model_at ((current_model_index w + Z.of_nat i) `mod` N_MODELS))
                      messages) = Exn (errs i)) →
    ∃ w',
      loop (Z.of_nat <$> seq j (length MODELS - j)) messages w =
        (Exn (all_models_failed (errs (K - 1)%nat)), w')
      ∧ current_model_index w' = (current_model_index w + Z.of_nat K) `mod` N_MODELS
      ∧ requests w' = requests w
                        ++ attempted SYSTEM_PROMPT (current_model_index w) messages K
      ∧ user_conversations w' = user_conversations w
      ∧ sent w' = sent w.
  Proof.
    induction K as [|K IH]; intros errs j w Hc HK Hj Hfail; [lia|].
    pose proof (Hfail 0%nat ltac:(lia)) as He.
    rewrite Z.add_0_r, Z.mod_small, Nat.add_0_r in He by done.
    rewrite py_range_from by lia.
    rewrite (fallback_loop_fail _ _ _ _ (errs 0%nat)) by done. cbv zeta.
    set (w1 := failed w _ _).
    destruct (decide (K = 0%nat)) as [->|HK'].
    - rewrite decide_True by (unfold N_MODELS; lia).
      exists w1. subst w1. cbn [requests current_model_index failed user_conversations sent].
      split_and!; try done.
      unfold attempted. simpl. rewrite Z.add_0_r, Z.mod_small by done. done.
    - rewrite decide_False by (unfold N_MODELS; lia).
      destruct (IH (λ i, errs (S i)) (S j) w1) as (w' & Hrun & Hcur & Hreq & Hconv & Hsent).
      + apply failed_cursor_ok.
      + lia.
      + lia.
      + intros i Hi. rewrite <- (Hfail (S i)) by lia.
        subst w1. cbn [requests current_model_index failed].
        rewrite length_app. cbn [length]. rewrite Zplus_mod_idemp_l.
        replace (length (requests w) + 1 + i)%nat with (length (requests w) + S i)%nat by lia.
        replace (current_model_index w + 1 + Z.of_nat i) with (current_model_index w + Z.of_nat (S i)) by lia.
        done.
      + exists w'. subst w1. cbn [requests current_model_index failed user_conversations sent] in *.
        rewrite Zplus_mod_idemp_l in Hcur.
        replace (current_model_index w + 1 + Z.of_nat K) with (current_model_index w + Z.of_nat (S K)) in * by lia.
        replace (S (K - 1)) with (S K - 1)%nat in Hrun by lia.
        split_and!; try done.
        rewrite Hreq, (attempted_S _ _ K), <- app_assoc.
        rewrite (Z.mod_small (current_model_index w)) by done. done.
  Qed.

Lemma attempted_messages c messages n :
    Forall (λ r, req_messages r
                 = {| role := system; content := Some SYSTEM_PROMPT |} :: messages)
           (attempted SYSTEM_PROMPT c messages n).
  Proof. unfold attempted. apply Forall_fmap, Forall_forall. done. Qed.

(** Within one pass over the list no model is asked twice. *)
Lemma attempted_NoDup c messages n :
    (n ≤ length MODELS)%nat →
    NoDup (req_model <$> attempted SYSTEM_PROMPT c messages n).
  Proof.
    clear create. intros Hn. unfold attempted. rewrite <- list_fmap_compose.
    apply NoDup_fmap_2_strong; [|apply NoDup_seq].
    intros i i' Hi Hi' E. apply elem_of_seq in Hi, Hi'. simpl in E.
    apply model_at_inj in E; try (apply Z.mod_pos_bound, N_MODELS_pos).
    assert (Hn' : Z.of_nat n ≤ 5) by (change 5 with N_MODELS; unfold N_MODELS; lia).
    rewrite N_MODELS_eq in E. apply Nat2Z.inj.
    assert (Ha : 0 ≤ Z.of_nat i < 5) by lia.
    assert (Hb : 0 ≤ Z.of_nat i' < 5) by lia.
    revert E Ha Hb. generalize (Z.of_nat i) (Z.of_nat i'). intros a b E Ha Hb.
    Z.div_mod_to_equations. lia.
  Qed.

(** What a call can do, whatever the models answer: it issues [n >= 1]
    requests in cursor order and either returns the text given in answer
    to the last of them, with its model, or raises with the error of the
    last of them. *)
Lemma fallback_loop_outcome messages attempts :
    last attempts = Some (N_MODELS - 1) →
    ∀ w, cursor_ok w →
    ∃ w' (n : nat),
      (1 ≤ n ≤ length attempts)%nat
      ∧ requests w' = requests w
                        ++ attempted SYSTEM_PROMPT (current_model_index w) messages n
      ∧ cursor_ok w'
      ∧ user_conversations w' = user_conversations w
      ∧ sent w' = sent w
      ∧ ((∃ text model, model ∈ MODELS ∧
            create (length (requests w) + (n - 1))%nat (request_for model messages)
              = Ok text ∧
            loop attempts messages w = (Ok (text, Some model), w'))
         ∨ (∃ e model, model ∈ MODELS ∧
            create (length (requests w) + (n - 1))%nat (request_for model messages)
              = Exn e ∧
            loop attempts messages w = (Exn (all_models_failed e), w'))).
  Proof.
    induction attempts as [|attempt rest IH]; intros Hlast w Hc; [done|].
    destruct (create (length (requests w))
                (request_for (model_at (current_model_index w)) messages))
      as [text|e] eqn:Hcreate.
    - exists (requested w (request_for (model_at (current_model_index w)) messages)), 1%nat.
      rewrite (fallback_loop_ok _ _ _ _ text) by done.
      split_and!; [lia|simpl; lia| |done|done|done|].
      + unfold attempted. simpl. rewrite Z.add_0_r, Z.mod_small by done. done.
      + left. eexists _, _. split_and!; [|by rewrite Nat.add_0_r|done].
        by apply model_at_elem.
    - rewrite (fallback_loop_fail _ _ _ _ e) by done. cbv zeta.
      set (w1 := failed w _ _).
      assert (E1 : requests w1 = requests w
                     ++ attempted SYSTEM_PROMPT (current_model_index w) messages 1).
      { unfold attempted. subst w1. simpl. rewrite Z.add_0_r, Z.mod_small by done. done. }
      destruct (decide (attempt = N_MODELS - 1)) as [->|Hne].
      + exists w1, 1%nat. split_and!; [lia|simpl; lia|done|apply failed_cursor_ok|done|done|].
        right. eexists _, _. split_and!; [|by rewrite Nat.add_0_r|done].
        by apply model_at_elem.
      + destruct rest as [|a' rest']; [simpl in Hlast; congruence|].
        destruct (IH Hlast w1 (failed_cursor_ok _ _ _))
          as (w' & n & Hn & Hreq & Hc' & Hconv & Hsent & Hres).
        assert (Etick : (length (requests w1) + (n - 1) = length (requests w) + (S n - 1))%nat).
        { rewrite E1, length_app, attempted_length. lia. }
        rewrite Etick in Hres.
        exists w', (S n). split_and!; [lia|simpl in *; lia| |done|done|done|done].
        rewrite Hreq, attempted_S.
        subst w1. cbn [requests current_model_index failed].
        rewrite <- app_assoc, (Z.mod_small (current_model_index w)) by done. done.
  Qed.

End Fallback.

(** ** Properties kept by every step of a handler *)

Section Preserves.
Context {A B : Type} (P : World → Prop).

Lemma preserves_ret (a : A) : preserves P (mret a).
  Proof. by intros w Hw. Qed.

Lemma preserves_raise (e : pystr) : preserves P (raise (A := A) e).
  Proof. by intros w Hw. Qed.

Lemma preserves_lift (o : Outcome A) : preserves P (lift o).
  Proof. by intros w Hw. Qed.

Lemma preserves_get_world : preserves P get_world.
  Proof. by intros w Hw. Qed.

Lemma preserves_bind (m : M A) (k : A → M B) :
    preserves P m → (∀ a, preserves P (k a)) → preserves P (m ≫= k).
  Proof.
    intros Hm Hk w Hw. unfold mbind, M_bind, bind.
    specialize (Hm w Hw). destruct (m w) as [[a|e] w']; simpl in *; [|done].
    by apply Hk.
  Qed.

Lemma preserves_try_except (body : M A) (handler : pystr → M A) :
    preserves P body → (∀ e, preserves P (handler e)) →
    preserves P (try_except body handler).
  Proof.
    intros Hm Hk w Hw. unfold try_except.
    specialize (Hm w Hw). destruct (body w) as [[a|e] w']; simpl in *; [done|].
    by apply Hk.
  Qed.
End Preserves.

Lemma preserves_for_each {A} (P : World → Prop) (xs : list A) (body : A → M unit) :
  (∀ x, preserves P (body x)) → preserves P (for_each xs body).
Proof.
  intros Hb. induction xs as [|x xs IH]; simpl.
  - apply preserves_ret.
  - apply preserves_bind; [apply Hb|intros _; apply IH].
Qed.

(** Composite programs keep whatever the primitive steps keep. *)
Section PreservesBot.
Variable SYSTEM_PROMPT : pystr.
Variable create : nat → Request → Outcome (option pystr).
Variable download : Document → Outcome (list Byte.byte).
Variable read_excel read_csv : list Byte.byte → Outcome DataFrame.

Variable P : World → Prop.
Hypothesis P_reply_text : ∀ t, preserves P (reply_text t).
Hypothesis P_print : ∀ t, preserves P (print t).
Hypothesis P_log_request : ∀ r, preserves P (log_request r).
Hypothesis P_set_cursor :
    ∀ c, preserves P (set_current_model_index (c `mod` N_MODELS)).
Hypothesis P_clear_history : ∀ u, preserves P (clear_history u).
Hypothesis P_append_record : ∀ u r, preserves P (append_record u r).

Ltac step :=
    first
      [ apply preserves_ret | apply preserves_raise | apply preserves_lift
      | apply preserves_get_world | apply P_reply_text | apply P_print
      | apply P_log_request | apply P_set_cursor | apply P_clear_history
      | apply P_append_record
      | apply preserves_bind; [|intros ?]
      | apply preserves_try_except; [|intros ?]
      | apply preserves_for_each; intros ? ].

Lemma preserves_current_model : preserves P current_model.
  Proof. unfold current_model. step; [step|]. destruct (py_index _ _); step. Qed.

Lemma preserves_fallback_loop attempts messages :
    preserves P (fallback_loop SYSTEM_PROMPT create attempts messages).
  Proof.
    induction attempts as [|attempt rest IH]; cbn [fallback_loop]; [step|].
    step; [apply preserves_current_model|].
    step; [unfold attempt_create; repeat step|].
    destruct a0; repeat step.
    destruct (decide _); [step|apply IH].
  Qed.

Lemma preserves_call_ai_with_fallback messages :
    preserves P (call_ai_with_fallback SYSTEM_PROMPT create messages).
  Proof. apply preserves_fallback_loop. Qed.

Lemma preserves_get_history u : preserves P (get_history u).
  Proof. unfold get_history. step; [step|]. destruct (_ !! _); step. Qed.

Lemma preserves_deliver u line assistant_message used_model :
    preserves P (deliver u line assistant_message used_model).
  Proof.
    unfold deliver. repeat step. destruct assistant_message; step.
  Qed.

Lemma preserves_answer u line :
    preserves P (answer SYSTEM_PROMPT create u line).
  Proof.
    unfold answer. step; [apply preserves_get_history|].
    step; [apply preserves_call_ai_with_fallback|].
    destruct a0 as [assistant_message used_model]. apply preserves_deliver.
  Qed.

Lemma preserves_ensure_history u : preserves P (ensure_history u).
  Proof.
    unfold ensure_history. step; [step|]. destruct (_ !! _); step.
  Qed.

Lemma preserves_name_endswith filename suffix :
    preserves P (name_endswith filename suffix).
  Proof. destruct filename; step. Qed.

Lemma preserves_render_preview filename df :
    preserves P (render_preview filename df).
  Proof. by intros w Hw; unfold render_preview, join_labels, mbind, M_bind, bind;
         destruct (labels_as_strings _ _). Qed.

Lemma preserves_analyse_table u filename df :
    preserves P (analyse_table SYSTEM_PROMPT create u filename df).
  Proof.
    unfold analyse_table. step; [apply preserves_render_preview|].
    step; [step|]. step; [step|]. apply preserves_answer.
  Qed.

Lemma preserves_handle_text u t :
    preserves P (handle_text SYSTEM_PROMPT create u t).
  Proof.
    unfold handle_text. step; [apply preserves_ensure_history|].
    step; [step|]. step; [|step]. step; [step|]. apply preserves_answer.
  Qed.

Lemma preserves_handle_file_body u d :
    preserves P
      (try_except
         (file_bytes ← lift (download d);
          is_excel ← py_or (name_endswith (file_name d) (py ".xlsx"))
                           (name_endswith (file_name d) (py ".xls"));
          if (is_excel : bool) then
            df ← lift (read_excel file_bytes);
            analyse_table SYSTEM_PROMPT create u (default [] (file_name d)) df
          else
            is_csv ← name_endswith (file_name d) (py ".csv");
            if (is_csv : bool) then
              df ← lift (read_csv file_bytes);
              analyse_table SYSTEM_PROMPT create u (default [] (file_name d)) df
            else reply_text UNSUPPORTED)
         (λ e, reply_text (py "❌ Ошибка при обработке файла: " ++ e))).
  Proof.
    step; [|step]. step; [step|].
    step.
    { unfold py_or. step; [apply preserves_name_endswith|].
      destruct a0; [step|apply preserves_name_endswith]. }
    destruct a0.
    - step; [step|apply preserves_analyse_table].
    - step; [apply preserves_name_endswith|].
      destruct a0; [|step].
      step; [step|apply preserves_analyse_table].
  Qed.

Lemma preserves_handle_file u d :
    preserves P (handle_file SYSTEM_PROMPT create download read_excel read_csv u d).
  Proof.
    unfold handle_file. step; [apply preserves_ensure_history|].
    apply preserves_handle_file_body.
  Qed.

Lemma preserves_handler ev :
    preserves P (handler SYSTEM_PROMPT create download read_excel read_csv ev).
  Proof.
    destruct ev; simpl.
    - unfold start. repeat step.
    - unfold reset. repeat step.
    - unfold models. step.
    - apply preserves_handle_file.
    - apply preserves_handle_text.
  Qed.

Lemma preserves_run evs w :
    P w → P (run SYSTEM_PROMPT create download read_excel read_csv evs w).
  Proof.
    revert w. induction evs as [|ev evs IH]; intros w Hw; [done|].
    simpl. apply IH. by apply preserves_handler.
  Qed.

End PreservesBot.

(** ** The two invariants of the store *)

Ltac unfold_prims :=
  unfold clear_history, append_record, ensure_history, get_history, reply_text,
    print, log_request, set_current_model_index, set_user_conversations,
    get_world, raise, mbind, M_bind, bind, mret, M_ret, ret in *.

Section Invariants.
Variable SYSTEM_PROMPT : pystr.
Variable create : nat → Request → Outcome (option pystr).
Variable download : Document → Outcome (list Byte.byte).
Variable read_excel read_csv : list Byte.byte → Outcome DataFrame.

Lemma cursor_ok_append_record u r : preserves cursor_ok (append_record u r).
  Proof.
    intros w Hw. unfold_prims. by destruct (user_conversations w !! u).
  Qed.

Lemma cursor_ok_set c :
    preserves cursor_ok (set_current_model_index (c `mod` N_MODELS)).
  Proof. intros w _. apply Z.mod_pos_bound, N_MODELS_pos. Qed.

(** A call of the fallback caller leaves the cursor on the list. *)
Lemma cursor_ok_call messages :
    preserves cursor_ok (call_ai_with_fallback SYSTEM_PROMPT create messages).
  Proof.
    apply preserves_call_ai_with_fallback;
      first [apply cursor_ok_set | by intros ? w Hw].
  Qed.

(** So does every handler. *)
Lemma cursor_ok_handler ev :
    preserves cursor_ok (handler SYSTEM_PROMPT create download read_excel read_csv ev).
  Proof.
    apply preserves_handler;
      first [apply cursor_ok_set | apply cursor_ok_append_record | by intros ? w Hw].
  Qed.

Lemma cursor_ok_run evs w :
    cursor_ok w →
    cursor_ok (run SYSTEM_PROMPT create download read_excel read_csv evs w).
  Proof.
    revert w. induction evs as [|ev evs IH]; intros w Hw; [done|].
    simpl. apply IH. by apply cursor_ok_handler.
  Qed.

Lemma has_history_clear u u' : preserves (has_history u) (clear_history u').
  Proof.
    intros w Hw. unfold has_history in *. unfold_prims. simpl.
    rewrite lookup_insert. by case_decide.
  Qed.

Lemma has_history_append u u' r : preserves (has_history u) (append_record u' r).
  Proof.
    intros w Hw. unfold has_history in *. unfold_prims.
    destruct (user_conversations w !! u') eqn:E; simpl; [|done].
    rewrite lookup_insert. by case_decide.
  Qed.

Lemma has_history_cleared u w : has_history u (clear_history u w).2.
  Proof. unfold has_history. unfold_prims. simpl. by rewrite lookup_insert_eq. Qed.

Lemma has_history_ensured u w : has_history u (ensure_history u w).2.
  Proof.
    unfold has_history. unfold_prims.
    destruct (user_conversations w !! u) eqn:E; simpl.
    - by rewrite E.
    - by rewrite lookup_insert_eq.
  Qed.

Lemma clear_history_ok u w : (clear_history u w).1 = Ok tt.
  Proof. done. Qed.

Lemma ensure_history_ok u w : (ensure_history u w).1 = Ok tt.
  Proof. unfold_prims. by destruct (user_conversations w !! u). Qed.

(** A program that first creates the entry and then runs any steps that
    keep it. *)
Lemma has_history_after u (first rest : M unit) w :
    (first w).1 = Ok tt → has_history u (first w).2 →
    preserves (has_history u) rest →
    has_history u ((first;; rest) w).2.
  Proof.
    intros Hok Hfirst Hrest. unfold mbind, M_bind, bind.
    destruct (first w) as [[[]|e] w1]; simpl in *; [|done]. by apply Hrest.
  Qed.

End Invariants.

(** ** The fallback caller: main results *)

Section FallbackResults.
Variable SYSTEM_PROMPT : pystr.
Variable create : nat → Request → Outcome (option pystr).

Lemma call_starts_at_cursor messages w :
    cursor_ok w →
    starts_at SYSTEM_PROMPT create messages w (current_model_index w).
  Proof.
    intros Hc. unfold starts_at, call_ai_with_fallback.
    destruct (fallback_loop_outcome SYSTEM_PROMPT create messages
                (py_range (length MODELS)) last_py_range w Hc)
      as (w' & n & Hn & Hreq & _ & _ & _ & Hres).
    assert (E : (fallback_loop SYSTEM_PROMPT create (py_range (length MODELS)) messages w).2 = w')
      by (destruct Hres as [(? & ? & _ & _ & ->)|(? & ? & _ & _ & ->)]; done).
    rewrite E, Hreq. destruct n as [|n]; [lia|].
    rewrite attempted_S, lookup_app_r, Nat.sub_diag by done. simpl.
    by rewrite Z.mod_small.
  Qed.

Lemma calls_cursor_ok histories w :
    cursor_ok w → cursor_ok (calls SYSTEM_PROMPT create histories w).
  Proof.
    revert w. induction histories as [|h hs IH]; intros w Hw; [done|].
    simpl. apply IH. by apply cursor_ok_call.
  Qed.

(** A full pass asks every model of the list. *)
Lemma attempted_every_model c messages m :
    m ∈ MODELS →
    m ∈ req_model <$> attempted SYSTEM_PROMPT c messages (length MODELS).
  Proof.
    intros Hm.
    pose proof (attempted_NoDup SYSTEM_PROMPT c messages (length MODELS) ltac:(lia)) as Hnd.
    assert (Hsub : req_model <$> attempted SYSTEM_PROMPT c messages (length MODELS)
                     ⊆+ MODELS).
    { apply NoDup_submseteq; [done|]. intros x Hx.
      apply list_elem_of_fmap in Hx as (r & -> & Hr).
      unfold attempted in Hr. apply list_elem_of_fmap in Hr as (i & -> & _).
      simpl. apply model_at_elem, Z.mod_pos_bound, N_MODELS_pos. }
    apply submseteq_length_Permutation in Hsub.
    - by rewrite Hsub.
    - by rewrite length_fmap, attempted_length.
  Qed.

End FallbackResults.

(** C1, as the code has it.  When the first [K] models tried fail and the
    next one succeeds, the caller issues exactly [K+1] requests, one per
    cursor position from the starting one on, wrapping at the end of the
    list; it returns the text of the successful response with the name of
    the model that gave it; the cursor ends at [(start+K) mod N]; and the
    next call starts from that same position [(start+K) mod N]: a success
    does not move the cursor. *)
Theorem fallback_first_success
    (SYSTEM_PROMPT : pystr) (create : nat → Request → Outcome (option pystr))
    (messages : list Message) (w : World) (K : nat) (text : pystr) :
  cursor_ok w →
  (K < length MODELS)%nat →
  (∀ i, (i < K)%nat → ∃ e,
     create (length (requests w) + i)%nat
       (mk_request SYSTEM_PROMPT
          (model_at ((current_model_index w + Z.of_nat i) `mod` N_MODELS)) messages)
     = Exn e) →
  create (length (requests w) + K)%nat
    (mk_request SYSTEM_PROMPT
       (model_at ((current_model_index w + Z.of_nat K) `mod` N_MODELS)) messages)
  = Ok (Some text) →
  ∃ w',
    call_ai_with_fallback SYSTEM_PROMPT create messages w =
      (Ok (Some text,
           Some (model_at ((current_model_index w + Z.of_nat K) `mod` N_MODELS))), w')
    ∧ requests w' = requests w
                      ++ attempted SYSTEM_PROMPT (current_model_index w) messages (S K)
    ∧ current_model_index w' = (current_model_index w + Z.of_nat K) `mod` N_MODELS
    ∧ ∀ messages',
        starts_at SYSTEM_PROMPT create messages' w'
                  ((current_model_index w + Z.of_nat K) `mod` N_MODELS).
Proof.
  intros Hc HK Hfail Hok.
  destruct (fallback_loop_first_success SYSTEM_PROMPT create messages (Some text) K 0%nat w
              Hc ltac:(lia) Hfail Hok) as (w' & Hrun & Hcur & Hreq & _ & _).
  exists w'. rewrite Nat.sub_0_r in Hrun. split_and!; try done.
  intros messages'. rewrite <- Hcur. apply call_starts_at_cursor.
  unfold cursor_ok. rewrite Hcur. apply Z.mod_pos_bound, N_MODELS_pos.
Qed.

Lemma fallback_first_success_witness :
  ∃ w',
    call_ai_with_fallback [] (flaky 2) [] initial =
      (Ok (Some (py "ok"), Some (model_at ((0 + Z.of_nat 2) `mod` N_MODELS))), w')
    ∧ requests w' = requests initial ++ attempted [] 0 [] 3
    ∧ current_model_index w' = (0 + Z.of_nat 2) `mod` N_MODELS
    ∧ ∀ messages', starts_at [] (flaky 2) messages' w' ((0 + Z.of_nat 2) `mod` N_MODELS).
Proof.
  apply (fallback_first_success [] (flaky 2) [] initial 2 (py "ok")).
  - apply initial_cursor_ok.
  - simpl. lia.
  - intros i Hi. exists (py "down").
    destruct i as [|[|i]]; [reflexivity|reflexivity|lia].
  - reflexivity.
Defined.

(** C1 as stated fails: with the cursor at 0 and a first attempt that
    succeeds ([K = 0]) the cursor stays at 0 and the next call starts at
    position 0, not at position [(0+0+1) mod N = 1]. *)
Lemma fallback_next_start_counterexample :
  ∃ w',
    call_ai_with_fallback [] (flaky 0) [] initial =
      (Ok (Some (py "ok"), Some (model_at 0)), w')
    ∧ current_model_index w' = 0
    ∧ starts_at [] (flaky 0) [] w' 0
    ∧ ¬ starts_at [] (flaky 0) [] w' ((0 + 0 + 1) `mod` N_MODELS).
Proof.
  eexists. split; [vm_compute; reflexivity|]. split; [reflexivity|].
  split; [vm_compute; reflexivity|].
  unfold starts_at. vm_compute. intros H. discriminate H.
Qed.

(** C2.  Whatever the starting cursor position, when every model fails the
    caller raises after exactly N requests, one to each model and none
    twice, and the text of the exception it raises contains the description
    of the error of the last attempt. *)
Theorem fallback_all_fail
    (SYSTEM_PROMPT : pystr) (create : nat → Request → Outcome (option pystr))
    (messages : list Message) (w : World) (errs : nat → pystr) :
  cursor_ok w →
  (∀ i, (i < length MODELS)%nat →
     create (length (requests w) + i)%nat
       (mk_request SYSTEM_PROMPT
          (model_at ((current_model_index w + Z.of_nat i) `mod` N_MODELS)) messages)
     = Exn (errs i)) →
  ∃ w' new,
    call_ai_with_fallback SYSTEM_PROMPT create messages w =
      (Exn (all_models_failed (errs (length MODELS - 1)%nat)), w')
    ∧ requests w' = requests w ++ new
    ∧ new = attempted SYSTEM_PROMPT (current_model_index w) messages (length MODELS)
    ∧ length new = length MODELS
    ∧ NoDup (req_model <$> new)
    ∧ (∀ m, m ∈ MODELS → m ∈ req_model <$> new)
    ∧ occurs_in (errs (length MODELS - 1)%nat)
                (all_models_failed (errs (length MODELS - 1)%nat)).
Proof.
  intros Hc Hfail.
  destruct (fallback_loop_all_fail SYSTEM_PROMPT create messages (length MODELS) errs
              0%nat w Hc ltac:(simpl; lia) ltac:(lia) Hfail)
    as (w' & Hrun & _ & Hreq & _ & _).
  rewrite Nat.sub_0_r in Hrun.
  exists w', (attempted SYSTEM_PROMPT (current_model_index w) messages (length MODELS)).
  split_and!;
    [done|done|done|apply attempted_length|by apply attempted_NoDup
    |apply attempted_every_model|].
  exists (py "❌ Все модели недоступны. Последняя ошибка: "), [].
  unfold all_models_failed. by rewrite app_nil_r.
Qed.

Lemma fallback_all_fail_witness :
  ∃ w' new,
    call_ai_with_fallback [] (flaky 5) [] initial =
      (Exn (all_models_failed (py "down")), w')
    ∧ requests w' = requests initial ++ new
    ∧ new = attempted [] (current_model_index initial) [] (length MODELS)
    ∧ length new = length MODELS
    ∧ NoDup (req_model <$> new)
    ∧ (∀ m, m ∈ MODELS → m ∈ req_model <$> new)
    ∧ occurs_in (py "down") (all_models_failed (py "down")).
Proof.
  apply (fallback_all_fail [] (flaky 5) [] initial (λ _, py "down")).
  - apply initial_cursor_ok.
  - intros i Hi. simpl in Hi.
    destruct i as [|[|[|[|[|i]]]]]; [reflexivity..|lia].
Defined.

(** C8.  The model cursor is always a position of the model list: it is 0
    at start-up, and whatever events are handled, whatever histories the
    fallback caller is invoked on and whatever each attempt answers, it stays
    in the range from 0 (included) to N (excluded). *)
Theorem cursor_always_valid
    (SYSTEM_PROMPT : pystr) (create : nat → Request → Outcome (option pystr))
    (download : Document → Outcome (list Byte.byte))
    (read_excel read_csv : list Byte.byte → Outcome DataFrame) :
  current_model_index initial = 0
  ∧ (∀ histories,
       0 ≤ current_model_index (calls SYSTEM_PROMPT create histories initial)
         < Z.of_nat (length MODELS))
  ∧ (∀ evs,
       0 ≤ current_model_index
             (run SYSTEM_PROMPT create download read_excel read_csv evs initial)
         < Z.of_nat (length MODELS)).
Proof.
  split; [reflexivity|]. split.
  - intros histories. apply calls_cursor_ok, initial_cursor_ok.
  - intros evs. apply cursor_ok_run, initial_cursor_ok.
Qed.

(** The first of [n] outcomes that is a success, or the fact that all [n]
    are failures. *)
Lemma first_success_or_all_fail {A} (f : nat → Outcome A) (n : nat) :
  (∃ K a, (K < n)%nat ∧ (∀ i, (i < K)%nat → ∃ e, f i = Exn e) ∧ f K = Ok a)
  ∨ (∀ i, (i < n)%nat → ∃ e, f i = Exn e).
Proof.
  induction n as [|n IH].
  - right. intros i Hi. lia.
  - destruct IH as [(K & a & HK & Hfail & Hok)|Hall].
    + left. exists K, a. split_and!; [lia|done|done].
    + destruct (f n) as [a|e] eqn:E.
      * left. exists n, a. split_and!; [lia| |done].
        intros i Hi. by apply Hall.
      * right. intros i Hi. destruct (decide (i = n)) as [->|Hne]; [by eexists|].
        apply Hall. lia.
Qed.

(** A call of the fallback caller, whatever the models answer: either some
    attempt is the first to succeed and the call returns the content of its
    response with its model, or all N attempts fail and the call raises
    with the error of the last of them. *)
Lemma call_cases (SYSTEM_PROMPT : pystr)
    (create : nat → Request → Outcome (option pystr))
    (messages : list Message) (w : World) :
  cursor_ok w →
  let outcome := λ i : nat,
    create (length (requests w) + i)%nat
      (mk_request SYSTEM_PROMPT
         (model_at ((current_model_index w + Z.of_nat i) `mod` N_MODELS)) messages) in
  (∃ K content w',
     (K < length MODELS)%nat
     ∧ (∀ i, (i < K)%nat → ∃ e, outcome i = Exn e)
     ∧ outcome K = Ok content
     ∧ call_ai_with_fallback SYSTEM_PROMPT create messages w =
         (Ok (content,
              Some (model_at ((current_model_index w + Z.of_nat K) `mod` N_MODELS))), w')
     ∧ requests w' = requests w
                       ++ attempted SYSTEM_PROMPT (current_model_index w) messages (S K)
     ∧ user_conversations w' = user_conversations w
     ∧ sent w' = sent w)
  ∨ (∃ e w',
       (∀ i, (i < length MODELS)%nat → ∃ e', outcome i = Exn e')
       ∧ outcome (length MODELS - 1)%nat = Exn e
       ∧ call_ai_with_fallback SYSTEM_PROMPT create messages w =
           (Exn (all_models_failed e), w')
       ∧ requests w' = requests w
                         ++ attempted SYSTEM_PROMPT (current_model_index w) messages
                                      (length MODELS)
       ∧ user_conversations w' = user_conversations w
       ∧ sent w' = sent w).
Proof.
  intros Hc outcome.
  destruct (first_success_or_all_fail outcome (length MODELS))
    as [(K & content & HK & Hfail & Hok)|Hall].
  - left.
    destruct (fallback_loop_first_success SYSTEM_PROMPT create messages content K
                0%nat w Hc ltac:(lia) Hfail Hok)
      as (w' & Hrun & _ & Hreq & Hconv & Hsent).
    rewrite Nat.sub_0_r in Hrun. exists K, content, w'.
    split_and!; done.
  - right.
    set (errs := λ i : nat, match outcome i with Exn e => e | Ok _ => [] end).
    assert (Herrs : ∀ i, (i < length MODELS)%nat → outcome i = Exn (errs i)).
    { intros i Hi. destruct (Hall i Hi) as [e He]. unfold errs. by rewrite He. }
    destruct (fallback_loop_all_fail SYSTEM_PROMPT create messages (length MODELS) errs
                0%nat w Hc ltac:(simpl; lia) ltac:(lia) Herrs)
      as (w' & Hrun & _ & Hreq & Hconv & Hsent).
    rewrite Nat.sub_0_r in Hrun.
    exists (errs (length MODELS - 1)%nat), w'.
    split_and!; [done|apply Herrs; simpl; lia|exact Hrun|done|done|done].
Qed.

(** C9, as the code has it.  In every world the program can reach, a call
    of the fallback caller never falls through to [return None, None]: the
    model it returns is never [None].  Either some attempt is the first to
    succeed, after the attempts before it failed, and the call returns the
    content of that response, as it is, with the name of the model asked;
    or all N attempts fail and the call raises, on the final attempt, the
    all-models-failed exception built from the error of that last
    request. *)
Theorem fallback_never_falls_through
    (SYSTEM_PROMPT : pystr) (create : nat → Request → Outcome (option pystr))
    (download : Document → Outcome (list Byte.byte))
    (read_excel read_csv : list Byte.byte → Outcome DataFrame)
    (evs : list Event) (messages : list Message) :
  let w := run SYSTEM_PROMPT create download read_excel read_csv evs initial in
  let result := (call_ai_with_fallback SYSTEM_PROMPT create messages w).1 in
  let outcome := λ i : nat,
    create (length (requests w) + i)%nat
      (mk_request SYSTEM_PROMPT
         (model_at ((current_model_index w + Z.of_nat i) `mod` N_MODELS)) messages) in
  (∀ content, result ≠ Ok (content, None))
  ∧ ((∃ K content,
        (K < length MODELS)%nat
        ∧ (∀ i, (i < K)%nat → ∃ e, outcome i = Exn e)
        ∧ outcome K = Ok content
        ∧ result
          = Ok (content,
                Some (model_at ((current_model_index w + Z.of_nat K) `mod` N_MODELS))))
     ∨ (∃ e,
        (∀ i, (i < length MODELS)%nat → ∃ e', outcome i = Exn e')
        ∧ outcome (length MODELS - 1)%nat = Exn e
        ∧ result = Exn (all_models_failed e))).
Proof.
  intros w result outcome.
  assert (Hc : cursor_ok w) by apply cursor_ok_run, initial_cursor_ok.
  destruct (call_cases SYSTEM_PROMPT create messages w Hc)
    as [(K & content & w' & HK & Hfail & Hok & Hrun & _)
       |(e & w' & Hall & Hlast & Hrun & _)];
    subst result; rewrite Hrun; cbn [fst].
  - split; [intros c E; discriminate E|]. left. by exists K, content.
  - split; [intros c E; discriminate E|]. right. by exists e.
Qed.

(** C9 as stated fails in its last part: when the response of the model has
    no content, the caller does receive a [None] reply, from the successful
    attempt itself and not from the branch after the loop. *)
Lemma fallback_none_reply_counterexample :
  (call_ai_with_fallback [] silent [] initial).1 = Ok (None, Some (model_at 0)).
Proof. vm_compute. reflexivity. Qed.

(** ** The handlers *)

Section Handlers.
Variable SYSTEM_PROMPT : pystr.
Variable create : nat → Request → Outcome (option pystr).
Variable download : Document → Outcome (list Byte.byte).
Variable read_excel read_csv : list Byte.byte → Outcome DataFrame.

Local Abbreviation file_handler :=
  (handle_file SYSTEM_PROMPT create download read_excel read_csv).
Local Abbreviation text_handler := (handle_text SYSTEM_PROMPT create).

(** What [ensure_history] leaves behind. *)
Lemma ensure_history_run u w :
  ∃ w', ensure_history u w = (Ok tt, w')
    ∧ current_model_index w' = current_model_index w
    ∧ requests w' = requests w
    ∧ sent w' = sent w
    ∧ printed w' = printed w
    ∧ user_conversations w' !! u = Some (default [] (user_conversations w !! u))
    ∧ (∀ u', u' ≠ u → user_conversations w' !! u' = user_conversations w !! u')
    ∧ (is_Some (user_conversations w !! u) → w' = w).
Proof.
  unfold_prims. destruct (user_conversations w !! u) as [h|] eqn:E.
  - exists w. rewrite E. split_and!; done.
  - eexists. split; [reflexivity|]. simpl. rewrite lookup_insert_eq.
    split_and!; try done.
    intros u' Hu'. by rewrite lookup_insert_ne.
Qed.

(** A file whose name has none of the three suffixes, once downloaded, is
    answered with the unsupported-format message and nothing else. *)
Lemma handle_file_unsupported u d name file_bytes w :
  file_name d = Some name →
  download d = Ok file_bytes →
  endswith name (py ".xlsx") = false →
  endswith name (py ".xls") = false →
  endswith name (py ".csv") = false →
  file_handler u d w = reply_text UNSUPPORTED (ensure_history u w).2.
Proof.
  intros Hname Hdl Hxlsx Hxls Hcsv.
  destruct (ensure_history_run u w) as (w' & Hens & _).
  unfold handle_file. unfold mbind at 1, M_bind at 1, bind at 1. rewrite Hens.
  unfold try_except, lift, py_or, name_endswith, mbind, M_bind, bind, mret, M_ret, ret.
  rewrite Hdl, Hname, Hxlsx, Hxls, Hcsv. reflexivity.
Qed.

(** A first-time user has an empty history as soon as the file handler has
    run, whatever the file. *)
Lemma handle_file_keeps_empty u d name w :
  user_conversations w !! u = None →
  file_name d = Some name →
  endswith name (py ".xlsx") = false →
  endswith name (py ".xls") = false →
  endswith name (py ".csv") = false →
  user_conversations (file_handler u d w).2 !! u = Some [].
Proof.
  intros Hnone Hname Hxlsx Hxls Hcsv.
  destruct (ensure_history_run u w) as (w' & Hens & _ & _ & _ & _ & Hu & _).
  rewrite Hnone in Hu. simpl in Hu.
  destruct (download d) as [file_bytes|e] eqn:Hdl.
  - rewrite (handle_file_unsupported u d name file_bytes) by done.
    by rewrite Hens.
  - unfold handle_file. unfold mbind at 1, M_bind at 1, bind at 1. rewrite Hens.
    unfold try_except, lift, mbind, M_bind, bind. by rewrite Hdl.
Qed.

End Handlers.

(** C10.  Each of the four handlers leaves the calling user with an entry in
    the conversation mapping, whatever the world it starts in and whatever
    happens on the way; and when a first-time user sends a file whose name
    has none of the recognized suffixes, the entry holds the empty history
    that was created before the format was looked at. *)
Theorem every_handler_creates_entry
    (SYSTEM_PROMPT : pystr) (create : nat → Request → Outcome (option pystr))
    (download : Document → Outcome (list Byte.byte))
    (read_excel read_csv : list Byte.byte → Outcome DataFrame)
    (w : World) (user_id : Z) :
  has_history user_id (start user_id w).2
  ∧ has_history user_id (reset user_id w).2
  ∧ (∀ document,
       has_history user_id
         (handle_file SYSTEM_PROMPT create download read_excel read_csv
                      user_id document w).2)
  ∧ (∀ user_text,
       has_history user_id (handle_text SYSTEM_PROMPT create user_id user_text w).2)
  ∧ (∀ document name,
       user_conversations w !! user_id = None →
       file_name document = Some name →
       endswith name (py ".xlsx") = false →
       endswith name (py ".xls") = false →
       endswith name (py ".csv") = false →
       user_conversations
         (handle_file SYSTEM_PROMPT create download read_excel read_csv
                      user_id document w).2 !! user_id = Some []).
Proof.
  split_and!.
  - apply has_history_after;
      [apply clear_history_ok|apply has_history_cleared|by intros w' Hw'].
  - apply has_history_after;
      [apply clear_history_ok|apply has_history_cleared|by intros w' Hw'].
  - intros document. apply has_history_after;
      [apply ensure_history_ok|apply has_history_ensured|].
    apply preserves_handle_file_body;
      first [apply has_history_append | by intros ? w' Hw'].
  - intros user_text. apply has_history_after;
      [apply ensure_history_ok|apply has_history_ensured|].
    intros w' Hw'.
    assert (Hkeep : preserves (has_history user_id)
              (append_record user_id {| role := user; content := Some user_text |};;
               try_except
                 (reply_text (py "⏳ Ищу ответ...");;
                  answer SYSTEM_PROMPT create user_id (py "✅ Ответ от модели: "))
                 (λ e, reply_text (py "❌ Ошибка: " ++ e ++ nl
                          ++ py "Проверьте OPENROUTER_API_KEY в файле .env")))).
    { apply preserves_bind; [apply has_history_append|intros _].
      apply preserves_try_except; [|by intros ? ? ?].
      apply preserves_bind; [by intros ? ?|intros _].
      apply preserves_answer;
        first [apply has_history_append | by intros ? ? ?]. }
    by apply Hkeep.
  - intros document name. apply handle_file_keeps_empty.
Qed.

Lemma every_handler_creates_entry_witness :
  user_conversations
    (handle_file [] (flaky 0) fetch_ok no_table no_table 1 data_txt initial).2 !! 1
  = Some [].
Proof.
  apply (proj2 (proj2 (proj2 (proj2
           (every_handler_creates_entry [] (flaky 0) fetch_ok no_table no_table
              initial 1)))) data_txt (py "data.txt")); reflexivity.
Defined.

(** C5, as the code has it.  When a file whose name has none of the three
    recognized suffixes has been downloaded, the handler sends the
    unsupported-format message and nothing else, issues no request, prints
    nothing, leaves the cursor and every other user's history alone, and
    adds no record to the caller's history; the one change it can make to
    the store is the empty history it creates for a caller that had none. *)
Theorem unsupported_file_rejected
    (SYSTEM_PROMPT : pystr) (create : nat → Request → Outcome (option pystr))
    (download : Document → Outcome (list Byte.byte))
    (read_excel read_csv : list Byte.byte → Outcome DataFrame)
    (w : World) (user_id : Z) (document : Document)
    (name : pystr) (file_bytes : list Byte.byte) :
  file_name document = Some name →
  download document = Ok file_bytes →
  endswith name (py ".xlsx") = false →
  endswith name (py ".xls") = false →
  endswith name (py ".csv") = false →
  let w' := (handle_file SYSTEM_PROMPT create download read_excel read_csv
                         user_id document w).2 in
  sent w' = sent w ++ [UNSUPPORTED]
  ∧ requests w' = requests w
  ∧ printed w' = printed w
  ∧ current_model_index w' = current_model_index w
  ∧ user_conversations w' !! user_id
    = Some (default [] (user_conversations w !! user_id))
  ∧ (∀ u, u ≠ user_id → user_conversations w' !! u = user_conversations w !! u)
  ∧ (is_Some (user_conversations w !! user_id) →
     user_conversations w' = user_conversations w).
Proof.
  intros Hname Hdl Hxlsx Hxls Hcsv w'. subst w'.
  rewrite (handle_file_unsupported SYSTEM_PROMPT create download read_excel read_csv
             user_id document name file_bytes) by done.
  destruct (ensure_history_run user_id w)
    as (w1 & Hens & Hcur & Hreq & Hsent & Hprinted & Hu & Hother & Hsame).
  rewrite Hens. simpl. rewrite Hsent.
  split_and!; try done. intros Hsome. by rewrite (Hsame Hsome).
Qed.

Lemma unsupported_file_rejected_witness :
  sent (handle_file [] (flaky 0) fetch_ok no_table no_table 1 data_txt initial).2
  = sent initial ++ [UNSUPPORTED].
Proof.
  apply (unsupported_file_rejected [] (flaky 0) fetch_ok no_table no_table
           initial 1 data_txt (py "data.txt") []); reflexivity.
Defined.

(** C5 as stated fails.  A first-time user who sends [data.txt] gets the
    unsupported-format message, yet the store has changed: the user had no
    entry in the conversation mapping before and has an empty history
    after. *)
Lemma unsupported_file_mutates_counterexample :
  let w' := (handle_file [] (flaky 0) fetch_ok no_table no_table 1 data_txt initial).2 in
  endswith (py "data.txt") (py ".xlsx") = false
  ∧ endswith (py "data.txt") (py ".xls") = false
  ∧ endswith (py "data.txt") (py ".csv") = false
  ∧ sent w' = [UNSUPPORTED]
  ∧ user_conversations initial !! 1 = None
  ∧ user_conversations w' !! 1 = Some []
  ∧ user_conversations w' ≠ user_conversations initial.
Proof.
  split_and!; try reflexivity.
  intros E. apply (f_equal (λ m : gmap Z (list Message), m !! 1)) in E.
  vm_compute in E. discriminate E.
Qed.

(** ** Running the text handler *)

Lemma append_record_run u r h w :
  user_conversations w !! u = Some h →
  append_record u r w = (Ok tt, stored w u (h ++ [r])).
Proof. intros Hh. unfold_prims. by rewrite Hh. Qed.

Lemma for_each_reply_text {A} (f : A → pystr) (xs : list A) (w : World) :
  for_each xs (λ x, reply_text (f x)) w = (Ok tt, replied w (f <$> xs)).
Proof.
  revert w. induction xs as [|x xs IH]; intros w.
  - destruct w. unfold replied. simpl. by rewrite app_nil_r.
  - cbn [for_each]. unfold mbind, M_bind, bind. unfold reply_text at 1.
    rewrite IH. unfold replied. simpl. by rewrite <- app_assoc.
Qed.

(** Delivering a reply: it is stored after the history, sent as the pieces
    computed by [chunks], and the model is printed. *)
Lemma deliver_run u line reply model h w :
  user_conversations w !! u = Some h →
  ∃ w', deliver u line (Some reply) (Some model) w = (Ok tt, w')
    ∧ requests w' = requests w
    ∧ current_model_index w' = current_model_index w
    ∧ user_conversations w'
      = <[u := h ++ [{| role := assistant; content := Some reply |}]]>
          (user_conversations w)
    ∧ sent w' = sent w ++ chunks reply
    ∧ printed w' = printed w ++ [line ++ model].
Proof.
  intros Hh. unfold deliver. unfold mbind at 1, M_bind at 1, bind at 1.
  rewrite (append_record_run _ _ h) by done.
  unfold len_of_option, mbind, M_bind, bind, mret, M_ret, ret.
  rewrite for_each_reply_text. eexists. split; [reflexivity|]. done.
Qed.

(** Delivering a response without content: the record is stored with
    [None] as its content, then [len(None)] raises. *)
Lemma deliver_none u line used_model h w :
  user_conversations w !! u = Some h →
  deliver u line None used_model w
  = (Exn (py "object of type 'NoneType' has no len()"),
     stored w u (h ++ [{| role := assistant; content := None |}])).
Proof.
  intros Hh. unfold deliver. unfold mbind at 1, M_bind at 1, bind at 1.
  rewrite (append_record_run _ _ h) by done. reflexivity.
Qed.

(** C3.  For every reply [m] of a model, the handlers' delivery sends it to
    the user as exactly ceil(len(m)/4096) messages, added in order after
    what was sent before; each is at most 4096 characters long, the k-th
    being the characters of [m] from position 4096*k on, and joined in
    order they give back [m]: nothing is lost or repeated. *)
Theorem reply_sent_in_chunks (user_id : Z) (done_by : pystr) (m : pystr)
    (used_model : pystr) (h : list Message) (w : World) :
  user_conversations w !! user_id = Some h →
  ∃ w' pieces,
    deliver user_id done_by (Some m) (Some used_model) w = (Ok tt, w')
    ∧ sent w' = sent w ++ pieces
    ∧ CHUNK = 4096%nat
    ∧ length pieces = ceil_div (length m) CHUNK
    ∧ Forall (λ c, (length c ≤ CHUNK)%nat) pieces
    ∧ (∀ k, (k < length pieces)%nat →
          pieces !! k = Some (py_slice m (k * CHUNK) (k * CHUNK + CHUNK)))
    ∧ concat pieces = m.
Proof.
  intros Hh.
  destruct (deliver_run user_id done_by m used_model h w Hh)
    as (w' & Hrun & _ & _ & _ & Hsent & _).
  destruct (chunks_cover_input m) as (HC & Hlen & Hall & Hkth & Hcat).
  exists w', (chunks m). split_and!; done.
Qed.

Lemma reply_sent_in_chunks_witness :
  ∃ w' pieces,
    deliver 1 [] (Some (py "ok")) (Some (py "m")) (stored initial 1 []) = (Ok tt, w')
    ∧ sent w' = sent (stored initial 1 []) ++ pieces
    ∧ CHUNK = 4096%nat
    ∧ length pieces = ceil_div (length (py "ok")) CHUNK
    ∧ Forall (λ c, (length c ≤ CHUNK)%nat) pieces
    ∧ (∀ k, (k < length pieces)%nat →
          pieces !! k = Some (py_slice (py "ok") (k * CHUNK) (k * CHUNK + CHUNK)))
    ∧ concat pieces = py "ok".
Proof.
  apply (reply_sent_in_chunks 1 [] (py "ok") (py "m") [] (stored initial 1 [])).
  reflexivity.
Defined.

Section TextHandler.
Variable SYSTEM_PROMPT : pystr.
Variable create : nat → Request → Outcome (option pystr).

(** The call made by [answer] is made on the stored history of the user. *)
Lemma answer_run u line h w :
  cursor_ok w →
  user_conversations w !! u = Some h →
  ∃ w' (n : nat),
    (1 ≤ n)%nat
    ∧ requests w' = requests w
                      ++ attempted SYSTEM_PROMPT (current_model_index w) h n
    ∧ user_conversations w' = user_conversations w
    ∧ sent w' = sent w
    ∧ ((∃ content model,
          answer SYSTEM_PROMPT create u line w
          = deliver u line content (Some model) w')
       ∨ (∃ e, answer SYSTEM_PROMPT create u line w = (Exn e, w'))).
Proof.
  intros Hc Hh.
  destruct (fallback_loop_outcome SYSTEM_PROMPT create h
              (py_range (length MODELS)) last_py_range w Hc)
    as (w' & n & Hn & Hreq & _ & Hconv & Hsent & Hres).
  exists w', n. split_and!; [lia|done|done|done|].
  unfold answer, get_history, get_world. unfold mbind, M_bind, bind.
  rewrite Hh. unfold ret. unfold call_ai_with_fallback.
  destruct Hres as [(reply & model & _ & _ & ->)|(e & model & _ & _ & ->)].
  - left. exists reply, model. reflexivity.
  - right. eexists. reflexivity.
Qed.

(** One run of the text handler: the models are asked about the old history
    followed by the new user record, and the history ends with that record
    and, when a model answered, the reply. *)
Lemma handle_text_run u t w :
  cursor_ok w →
  let h := default [] (user_conversations w !! u) in
  let record := {| role := user; content := Some t |} in
  let w' := (handle_text SYSTEM_PROMPT create u t w).2 in
  ∃ (n : nat) tail,
    (1 ≤ n)%nat
    ∧ requests w' = requests w
                      ++ attempted SYSTEM_PROMPT (current_model_index w)
                                   (h ++ [record]) n
    ∧ user_conversations w' !! u = Some (h ++ record :: tail)
    ∧ (tail = [] ∨ ∃ content, tail = [{| role := assistant; content := content |}]).
Proof.
  intros Hc h record w'.
  destruct (ensure_history_run u w)
    as (w1 & Hens & Hcur & Hreq & _ & _ & Hu & _ & _).
  fold h in Hu.
  set (w3 := replied (stored w1 u (h ++ [record])) [py "⏳ Ищу ответ..."]).
  assert (Hrun : handle_text SYSTEM_PROMPT create u t w =
            match answer SYSTEM_PROMPT create u (py "✅ Ответ от модели: ") w3 with
            | (Ok a, w4) => (Ok a, w4)
            | (Exn e, w4) =>
              reply_text (py "❌ Ошибка: " ++ e ++ nl
                            ++ py "Проверьте OPENROUTER_API_KEY в файле .env") w4
            end).
  { unfold handle_text. unfold mbind at 1, M_bind at 1, bind at 1. rewrite Hens.
    unfold mbind at 1, M_bind at 1, bind at 1.
    rewrite (append_record_run _ _ h) by done. reflexivity. }
  assert (Hc3 : cursor_ok w3) by (unfold cursor_ok; subst w3; cbn; by rewrite Hcur).
  assert (Hh3 : user_conversations w3 !! u = Some (h ++ [record]))
    by (subst w3; cbn; apply lookup_insert_eq).
  destruct (answer_run u (py "✅ Ответ от модели: ") _ w3 Hc3 Hh3)
    as (w4 & n & Hn & Hreq4 & Hconv4 & _ & Hres).
  assert (Hreq4' : requests w4 = requests w
            ++ attempted SYSTEM_PROMPT (current_model_index w) (h ++ [record]) n).
  { rewrite Hreq4. subst w3. cbn. by rewrite Hreq, Hcur. }
  assert (Hh4 : user_conversations w4 !! u = Some (h ++ [record]))
    by (by rewrite Hconv4).
  destruct Hres as [([reply|] & model & Hans)|(e & Hans)]; rewrite Hans in Hrun.
  - destruct (deliver_run u (py "✅ Ответ от модели: ") reply model _ w4 Hh4)
      as (w5 & Hdel & Hreq5 & _ & Hconv5 & _ & _).
    rewrite Hdel in Hrun.
    exists n, [{| role := assistant; content := Some reply |}].
    subst w'. rewrite Hrun. cbn [snd].
    rewrite Hreq5, Hconv5, lookup_insert_eq, <- app_assoc.
    split_and!; [done|done|done|]. right. by eexists.
  - rewrite (deliver_none _ _ _ _ _ Hh4) in Hrun.
    exists n, [{| role := assistant; content := None |}].
    subst w'. rewrite Hrun. unfold reply_text.
    cbn [snd requests user_conversations stored].
    rewrite lookup_insert_eq, <- app_assoc.
    split_and!; [done|done|done|]. right. by eexists.
  - exists n, []. subst w'. rewrite Hrun. unfold reply_text. cbn [snd requests user_conversations].
    split_and!; [done|done|done|by left].
Qed.

End TextHandler.

Lemma reset_run (u : Z) (w : World) :
  reset u w =
  (Ok tt, replied (stored w u [])
            [py "🔄 История диалога очищена. Готов к новому анализу!"]).
Proof. reflexivity. Qed.

Lemma start_run (u : Z) (w : World) :
  start u w = (Ok tt, replied (stored w u []) [GREETING]).
Proof. reflexivity. Qed.

(** C6.  In every world the program can reach, a reset followed by a text
    message makes the text handler call the models on a history of exactly
    one record, the user record holding the new text: every request it then
    issues carries the system instruction followed by that one record, at
    least one request is issued, and the assistant's reply, if any, is
    stored only after that record. *)
Theorem reset_then_text
    (SYSTEM_PROMPT : pystr) (create : nat → Request → Outcome (option pystr))
    (download : Document → Outcome (list Byte.byte))
    (read_excel read_csv : list Byte.byte → Outcome DataFrame)
    (evs : list Event) (user_id : Z) (user_text : pystr) :
  let w0 := run SYSTEM_PROMPT create download read_excel read_csv evs initial in
  let w1 := (reset user_id w0).2 in
  let w2 := (handle_text SYSTEM_PROMPT create user_id user_text w1).2 in
  let record := {| role := user; content := Some user_text |} in
  user_conversations w1 !! user_id = Some []
  ∧ ∃ new tail,
      new ≠ []
      ∧ requests w2 = requests w1 ++ new
      ∧ Forall (λ r, req_messages r
                     = [{| role := system; content := Some SYSTEM_PROMPT |}; record])
               new
      ∧ user_conversations w2 !! user_id = Some (record :: tail)
      ∧ (tail = [] ∨ ∃ content, tail = [{| role := assistant; content := content |}]).
Proof.
  intros w0 w1 w2 record.
  assert (Hc0 : cursor_ok w0) by apply cursor_ok_run, initial_cursor_ok.
  assert (Hh1 : user_conversations w1 !! user_id = Some []).
  { subst w1. rewrite reset_run. cbn [snd replied stored user_conversations].
    apply lookup_insert_eq. }
  assert (Hc1 : cursor_ok w1) by (subst w1; rewrite reset_run; exact Hc0).
  split; [done|].
  destruct (handle_text_run SYSTEM_PROMPT create user_id user_text w1 Hc1)
    as (n & tail & Hn & Hreq & Hconv & Htail).
  rewrite Hh1 in Hreq, Hconv. cbn [default app] in Hreq, Hconv.
  exists (attempted SYSTEM_PROMPT (current_model_index w1) [record] n), tail.
  split_and!; [|done|apply attempted_messages|done|done].
  intros E. apply (f_equal length) in E. rewrite attempted_length in E.
  simpl in E. lia.
Qed.

(** C7 at a table with a numeric header cell: the column labels are not all
    strings, [", ".join] raises, no preview is rendered, and the user gets
    the generic failure message; the history stays empty and no model is
    asked. *)
Lemma numeric_header_no_preview :
  let w' := (handle_file [] (flaky 0) fetch_ok (λ _, Ok numeric_header_table) no_table
                         1 data_xlsx initial).2 in
  sent w' = [py "❌ Ошибка при обработке файла: "
               ++ py "sequence item 0: expected str instance, int found"]
  ∧ requests w' = []
  ∧ user_conversations w' !! 1 = Some [].
Proof.
  split; [vm_compute; reflexivity|]. split; vm_compute; reflexivity.
Qed.

(** * Further properties of the program *)

(** ** The pieces of a reply *)

Lemma chunks_lookup (m : pystr) (k : nat) (c : pystr) :
  chunks m !! k = Some c →
  (k < ceil_div (length m) CHUNK)%nat ∧ c = take CHUNK (drop (k * CHUNK) m).
Proof.
  rewrite chunks_closed, list_lookup_fmap. intros H.
  destruct (seq 0 (ceil_div (length m) CHUNK) !! k) as [j|] eqn:E; [|done].
  apply lookup_seq in E as [-> Hk]. simpl in H. split; [done|congruence].
Qed.

Lemma block_length (c L k n : nat) :
  (0 < c)%nat → (k < n)%nat → ((n - 1) * c < L)%nat →
  (0 < c `min` (L - k * c))%nat ∧ (S k < n → c `min` (L - k * c) = c)%nat.
Proof.
  intros Hc Hk Hn.
  assert (k * c ≤ (n - 1) * c)%nat by (apply Nat.mul_le_mono_r; lia).
  split; [lia|]. intros HS.
  assert (S k * c ≤ (n - 1) * c)%nat by (apply Nat.mul_le_mono_r; lia).
  simpl in *. lia.
Qed.

(** The sizes of the slices taken by the chunking loop. *)
Lemma chunks_sizes_of (m : pystr) :
  (∀ k c, chunks m !! k = Some c →
     (0 < length c ≤ CHUNK)%nat
     ∧ (S k < length (chunks m) → length c = CHUNK)%nat)
  ∧ chunks [] = []
  ∧ ((0 < length m ≤ CHUNK)%nat → chunks m = [m]).
Proof.
  assert (HC : (0 < CHUNK)%nat) by (unfold CHUNK; lia).
  split_and!.
  - intros k c Hk. apply chunks_lookup in Hk as [Hk ->].
    rewrite chunks_closed, length_fmap, length_seq, length_take, length_drop.
    destruct (ceil_div_spec (length m) CHUNK HC) as [_ Hlow].
    assert (HL : (0 < length m)%nat).
    { destruct (length m) eqn:E; [|lia]. rewrite ceil_div_0 in Hk by done. lia. }
    destruct (block_length CHUNK (length m) k (ceil_div (length m) CHUNK) HC Hk
                (Hlow HL)) as [Hpos Hfull].
    split; [split; [done|apply Nat.le_min_l]|done].
  - reflexivity.
  - intros [Hpos Hle]. rewrite chunks_closed.
    assert (E : ceil_div (length m) CHUNK = 1%nat).
    { unfold ceil_div. symmetry.
      apply (Nat.div_unique _ _ 1%nat (length m - 1)%nat); lia. }
    rewrite E. simpl. by rewrite drop_0, take_ge.
Qed.

(** When a reply [m] is delivered, every message added to those sent to the
    user is non-empty and at most 4096 characters long, and every one but
    the last is exactly 4096 characters long; an empty reply adds no
    message at all, and a non-empty reply of at most 4096 characters is
    sent as it is, as one message. *)
Theorem reply_pieces_sizes (user_id : Z) (done_by : pystr) (m : pystr)
    (used_model : pystr) (h : list Message) (w : World) :
  user_conversations w !! user_id = Some h →
  ∃ w' pieces,
    deliver user_id done_by (Some m) (Some used_model) w = (Ok tt, w')
    ∧ sent w' = sent w ++ pieces
    ∧ (∀ k c, pieces !! k = Some c →
         (0 < length c ≤ CHUNK)%nat
         ∧ (S k < length pieces → length c = CHUNK)%nat)
    ∧ (m = [] → pieces = [])
    ∧ ((0 < length m ≤ CHUNK)%nat → pieces = [m]).
Proof.
  intros Hh.
  destruct (deliver_run user_id done_by m used_model h w Hh)
    as (w' & Hrun & _ & _ & _ & Hsent & _).
  destruct (chunks_sizes_of m) as (Hsizes & Hnil & Hone).
  exists w', (chunks m). split_and!; try done.
  by intros ->.
Qed.

Lemma reply_pieces_sizes_witness :
  ∃ w' pieces,
    deliver 1 [] (Some (py "ok")) (Some (py "m")) (stored initial 1 []) = (Ok tt, w')
    ∧ sent w' = sent (stored initial 1 []) ++ pieces
    ∧ (∀ k c, pieces !! k = Some c →
         (0 < length c ≤ CHUNK)%nat
         ∧ (S k < length pieces → length c = CHUNK)%nat)
    ∧ (py "ok" = [] → pieces = [])
    ∧ ((0 < length (py "ok") ≤ CHUNK)%nat → pieces = [py "ok"]).
Proof.
  apply (reply_pieces_sizes 1 [] (py "ok") (py "m") [] (stored initial 1 [])).
  reflexivity.
Defined.

(** ** The fallback caller: what one call does to the world *)

Lemma py_range_length (n : nat) : length (py_range n) = n.
Proof. unfold py_range. by rewrite length_fmap, length_seq. Qed.

Lemma attempted_shape (SYSTEM_PROMPT : pystr) (c : Z) (messages : list Message)
    (n : nat) :
  Forall (λ r, req_model r ∈ MODELS
               ∧ req_max_tokens r = 4000
               ∧ req_messages r
                 = {| role := system; content := Some SYSTEM_PROMPT |} :: messages)
         (attempted SYSTEM_PROMPT c messages n).
Proof.
  unfold attempted. apply Forall_fmap, Forall_forall. intros i _. simpl.
  split_and!; [|done|done]. apply model_at_elem, Z.mod_pos_bound, N_MODELS_pos.
Qed.

(** In every world the program can reach, one call of the fallback caller
    issues between 1 and N requests, all to models of the list and no two to
    the same model, each with the output limit 4000 and with the system
    instruction put in front of the unchanged history; the call changes
    neither the conversation mapping nor what was sent to users, and it
    keeps the requests issued before it. *)
Theorem call_requests_shape
    (SYSTEM_PROMPT : pystr) (create : nat → Request → Outcome (option pystr))
    (download : Document → Outcome (list Byte.byte))
    (read_excel read_csv : list Byte.byte → Outcome DataFrame)
    (evs : list Event) (messages : list Message) :
  let w := run SYSTEM_PROMPT create download read_excel read_csv evs initial in
  let w' := (call_ai_with_fallback SYSTEM_PROMPT create messages w).2 in
  ∃ new,
    requests w' = requests w ++ new
    ∧ (1 ≤ length new ≤ length MODELS)%nat
    ∧ Forall (λ r, req_model r ∈ MODELS
                   ∧ req_max_tokens r = 4000
                   ∧ req_messages r
                     = {| role := system; content := Some SYSTEM_PROMPT |} :: messages)
             new
    ∧ NoDup (req_model <$> new)
    ∧ user_conversations w' = user_conversations w
    ∧ sent w' = sent w.
Proof.
  intros w w'.
  assert (Hc : cursor_ok w) by apply cursor_ok_run, initial_cursor_ok.
  destruct (fallback_loop_outcome SYSTEM_PROMPT create messages
              (py_range (length MODELS)) last_py_range w Hc)
    as (w1 & n & Hn & Hreq & _ & Hconv & Hsent & Hres).
  rewrite py_range_length in Hn.
  assert (E : w' = w1).
  { subst w'. unfold call_ai_with_fallback.
    by destruct Hres as [(? & ? & _ & _ & ->)|(? & ? & _ & _ & ->)]. }
  rewrite E. exists (attempted SYSTEM_PROMPT (current_model_index w) messages n).
  split_and!; try done.
  - rewrite attempted_length. lia.
  - rewrite attempted_length. lia.
  - apply attempted_shape.
  - apply attempted_NoDup. lia.
Qed.

(** When every model fails, the cursor has gone once round the list and is
    back where it was: a total outage does not change which model the next
    call tries first. *)
Theorem total_failure_keeps_cursor
    (SYSTEM_PROMPT : pystr) (create : nat → Request → Outcome (option pystr))
    (messages : list Message) (w : World) (errs : nat → pystr) :
  cursor_ok w →
  (∀ i, (i < length MODELS)%nat →
     create (length (requests w) + i)%nat
       (mk_request SYSTEM_PROMPT
          (model_at ((current_model_index w + Z.of_nat i) `mod` N_MODELS)) messages)
     = Exn (errs i)) →
  let w' := (call_ai_with_fallback SYSTEM_PROMPT create messages w).2 in
  current_model_index w' = current_model_index w
  ∧ ∀ messages', starts_at SYSTEM_PROMPT create messages' w' (current_model_index w).
Proof.
  intros Hc Hfail w'.
  destruct (fallback_loop_all_fail SYSTEM_PROMPT create messages (length MODELS) errs
              0%nat w Hc ltac:(simpl; lia) ltac:(lia) Hfail)
    as (w1 & Hrun & Hcur & _).
  rewrite Nat.sub_0_r in Hrun.
  assert (E : w' = w1)
    by (subst w'; unfold call_ai_with_fallback, py_range; by rewrite Hrun).
  assert (Hcur' : current_model_index w1 = current_model_index w).
  { rewrite Hcur. fold N_MODELS.
    rewrite <- (Z.mul_1_l N_MODELS) at 1.
    rewrite Z.mod_add by (pose proof N_MODELS_pos; lia).
    by apply Z.mod_small. }
  rewrite E. split; [done|]. intros messages'. rewrite <- Hcur'.
  apply call_starts_at_cursor. unfold cursor_ok. by rewrite Hcur'.
Qed.

Lemma total_failure_keeps_cursor_witness :
  current_model_index (call_ai_with_fallback [] (flaky 5) [] initial).2
  = current_model_index initial.
Proof.
  apply (total_failure_keeps_cursor [] (flaky 5) [] initial (λ _, py "down")).
  - apply initial_cursor_ok.
  - intros i Hi. simpl in Hi.
    destruct i as [|[|[|[|[|i]]]]]; [reflexivity..|lia].
Defined.

(** ** The models command and the start-up check *)

Lemma occurs_in_app_r (sub pre s : pystr) :
  occurs_in sub s → occurs_in sub (pre ++ s).
Proof.
  intros (before & after & ->). exists (pre ++ before), after.
  by rewrite <- app_assoc.
Qed.

Lemma occurs_in_app_l (sub s post : pystr) :
  occurs_in sub s → occurs_in sub (s ++ post).
Proof.
  intros (before & after & ->). exists before, (after ++ post).
  by rewrite <- !app_assoc.
Qed.

Lemma occurs_in_refl (s : pystr) : occurs_in s s.
Proof. exists [], []. by rewrite app_nil_r. Qed.

(** Every part of a joined string occurs in it. *)
Lemma join_occurs (sep : pystr) (parts : list pystr) (p : pystr) :
  p ∈ parts → occurs_in p (join sep parts).
Proof.
  induction parts as [|q rest IH]; intros Hp; [by apply elem_of_nil in Hp|].
  apply elem_of_cons in Hp as [->|Hp].
  - destruct rest; [apply occurs_in_refl|].
    cbn [join]. apply occurs_in_app_l, occurs_in_refl.
  - destruct rest as [|q' rest']; [by apply elem_of_nil in Hp|].
    cbn [join]. apply occurs_in_app_r, occurs_in_app_r, IH, Hp.
Qed.

(** The models command sends one message and changes nothing else; the
    message holds one bullet line for each configured model. *)
Theorem models_lists_every_model (w : World) :
  ∃ message,
    models w = (Ok tt, replied w [message])
    ∧ ∀ m, m ∈ MODELS → occurs_in (py "• " ++ m) message.
Proof.
  eexists. split; [reflexivity|]. intros m Hm.
  apply occurs_in_app_r, occurs_in_app_r, occurs_in_app_r, join_occurs.
  apply list_elem_of_fmap. by exists m.
Qed.

Lemma falsy_false_is_set (o : option pystr) : falsy o = false ↔ is_set o.
Proof.
  split.
  - destruct o as [[|c s]|]; try done. intros _. by eexists.
  - intros (s & -> & Hs). by destruct s.
Qed.

(** [main] gets as far as starting the dispatcher exactly when both
    environment variables are set to non-empty values.  Otherwise it raises
    before printing anything; the token is checked first, so with both
    missing the error names the token. *)
Theorem main_starts_iff (getenv : pystr → option pystr) (w : World) :
  let token := getenv (py "TELEGRAM_BOT_TOKEN") in
  let api_key := getenv (py "OPENROUTER_API_KEY") in
  ((main getenv w).1 = Ok tt ↔ is_set token ∧ is_set api_key)
  ∧ (¬ is_set token → main getenv w = (Exn TOKEN_MISSING, w))
  ∧ (is_set token → ¬ is_set api_key → main getenv w = (Exn API_KEY_MISSING, w))
  ∧ (is_set token → is_set api_key →
     length (printed (main getenv w).2) = (length (printed w) + 3)%nat).
Proof.
  intros token api_key. unfold main. fold token api_key.
  rewrite <- !falsy_false_is_set.
  destruct (falsy token), (falsy api_key); unfold raise; cbn [fst].
  - split_and!; [split; [intros H|intros [H _]]; discriminate H
                |intros _; reflexivity
                |intros H; discriminate H
                |intros H; discriminate H].
  - split_and!; [split; [intros H|intros [H _]]; discriminate H
                |intros _; reflexivity
                |intros H; discriminate H
                |intros H; discriminate H].
  - split_and!; [split; [intros H|intros [_ H]]; discriminate H
                |intros H; by destruct H
                |intros _ _; reflexivity
                |intros _ H; discriminate H].
  - split_and!; [split; [by intros _|intros _; reflexivity]
                |intros H; by destruct H
                |intros _ H; by destruct H
                |intros _ _].
    unfold print, mbind, M_bind, bind. cbn [snd printed].
    rewrite !length_app. cbn [length]. lia.
Qed.

Lemma main_starts_iff_witness :
  main (λ _, None) initial = (Exn TOKEN_MISSING, initial).
Proof.
  apply (proj1 (proj2 (main_starts_iff (λ _, None) initial))).
  intros (s & E & _). discriminate E.
Defined.

(** ** Failures never leave the message handlers *)



(** ** What a handler does to the histories *)

(** Programs run on behalf of one user keep whatever the steps taken for
    that user keep. *)
Section PreservesUser.
Variable SYSTEM_PROMPT : pystr.
Variable create : nat → Request → Outcome (option pystr).
Variable download : Document → Outcome (list Byte.byte).
Variable read_excel read_csv : list Byte.byte → Outcome DataFrame.
Variable u : Z.

Variable P : World → Prop.
Hypothesis P_reply_text : ∀ t, preserves P (reply_text t).
Hypothesis P_print : ∀ t, preserves P (print t).
Hypothesis P_log_request : ∀ r, preserves P (log_request r).
Hypothesis P_set_cursor :
  ∀ c, preserves P (set_current_model_index (c `mod` N_MODELS)).
Hypothesis P_append_record : ∀ r, preserves P (append_record u r).

Lemma preserves_user_deliver line assistant_message used_model :
  preserves P (deliver u line assistant_message used_model).
Proof.
  unfold deliver.
  apply preserves_bind; [apply P_append_record|intros _].
  apply preserves_bind; [|intros n].
  { destruct assistant_message; [apply preserves_ret|apply preserves_raise]. }
  apply preserves_bind; [|intros _; apply P_print].
  apply preserves_for_each. intros i. apply P_reply_text.
Qed.

Lemma preserves_user_answer line :
  preserves P (answer SYSTEM_PROMPT create u line).
Proof.
  unfold answer.
  apply preserves_bind; [apply preserves_get_history|intros history].
  apply preserves_bind; [by apply preserves_call_ai_with_fallback|].
  intros [assistant_message used_model]. apply preserves_user_deliver.
Qed.

Lemma preserves_user_analyse_table filename df :
  preserves P (analyse_table SYSTEM_PROMPT create u filename df).
Proof.
  unfold analyse_table.
  apply preserves_bind; [apply preserves_render_preview|intros data_preview].
  apply preserves_bind; [apply P_reply_text|intros _].
  apply preserves_bind; [apply P_append_record|intros _].
  apply preserves_user_answer.
Qed.

(** [handle_text] after its first step. *)
Lemma preserves_user_text_body t :
  preserves P
    (append_record u {| role := user; content := Some t |};;
     try_except
       (reply_text (py "⏳ Ищу ответ...");;
        answer SYSTEM_PROMPT create u (py "✅ Ответ от модели: "))
       (λ e, reply_text (py "❌ Ошибка: " ++ e ++ nl
                ++ py "Проверьте OPENROUTER_API_KEY в файле .env"))).
Proof.
  apply preserves_bind; [apply P_append_record|intros _].
  apply preserves_try_except; [|intros e; apply P_reply_text].
  apply preserves_bind; [apply P_reply_text|intros _].
  apply preserves_user_answer.
Qed.

(** [handle_file] after its first step. *)
Lemma preserves_user_file_body d :
  preserves P
    (try_except
       (file_bytes ← lift (download d);
        is_excel ← py_or (name_endswith (file_name d) (py ".xlsx"))
                         (name_endswith (file_name d) (py ".xls"));
        if (is_excel : bool) then
          df ← lift (read_excel file_bytes);
          analyse_table SYSTEM_PROMPT create u (default [] (file_name d)) df
        else
          is_csv ← name_endswith (file_name d) (py ".csv");
          if (is_csv : bool) then
            df ← lift (read_csv file_bytes);
            analyse_table SYSTEM_PROMPT create u (default [] (file_name d)) df
          else reply_text UNSUPPORTED)
       (λ e, reply_text (py "❌ Ошибка при обработке файла: " ++ e))).
Proof.
  apply preserves_try_except; [|intros e; apply P_reply_text].
  apply preserves_bind; [apply preserves_lift|intros file_bytes].
  apply preserves_bind; [|intros is_excel].
  { unfold py_or. apply preserves_bind; [apply preserves_name_endswith|intros x].
    destruct x; [apply preserves_ret|apply preserves_name_endswith]. }
  destruct is_excel.
  - apply preserves_bind; [apply preserves_lift|intros df].
    apply preserves_user_analyse_table.
  - apply preserves_bind; [apply preserves_name_endswith|intros is_csv].
    destruct is_csv; [|apply P_reply_text].
    apply preserves_bind; [apply preserves_lift|intros df].
    apply preserves_user_analyse_table.
Qed.

End PreservesUser.

Section Histories.
Variable SYSTEM_PROMPT : pystr.
Variable create : nat → Request → Outcome (option pystr).
Variable download : Document → Outcome (list Byte.byte).
Variable read_excel read_csv : list Byte.byte → Outcome DataFrame.

Local Abbreviation handle_event :=
  (handle SYSTEM_PROMPT create download read_excel read_csv).

Lemma history_is_clear u u' x :
  u ≠ u' → preserves (history_is u' x) (clear_history u).
Proof.
  intros Hne w Hw. unfold history_is in *. unfold_prims.
  cbn [snd user_conversations]. by rewrite lookup_insert_ne.
Qed.

Lemma history_is_append u u' x r :
  u ≠ u' → preserves (history_is u' x) (append_record u r).
Proof.
  intros Hne w Hw. unfold history_is in *. unfold_prims.
  destruct (user_conversations w !! u) as [h|]; cbn [snd user_conversations]; [|done].
  by rewrite lookup_insert_ne.
Qed.

Lemma history_is_ensure u u' x :
  u ≠ u' → preserves (history_is u' x) (ensure_history u).
Proof.
  intros Hne w Hw.
  unfold history_is in *.
  destruct (ensure_history_run u w) as (w1 & -> & _ & _ & _ & _ & _ & Hother & _).
  cbn [snd]. by rewrite Hother.
Qed.

Lemma handler_other_user ev u' x :
  event_user ev ≠ Some u' →
  preserves (history_is u' x)
            (handler SYSTEM_PROMPT create download read_excel read_csv ev).
Proof.
  intros Hev.
  assert (Hreply : ∀ t, preserves (history_is u' x) (reply_text t)) by (by intros t w' Hw').
  assert (Hprint : ∀ t, preserves (history_is u' x) (print t)) by (by intros t w' Hw').
  assert (Hlog : ∀ r, preserves (history_is u' x) (log_request r)) by (by intros r w' Hw').
  assert (Hset : ∀ c, preserves (history_is u' x)
                        (set_current_model_index (c `mod` N_MODELS)))
    by (by intros c w' Hw').
  destruct ev as [u|u| |u d|u t]; cbn [handler event_user] in *.
  - assert (u ≠ u') by congruence. unfold start.
    apply preserves_bind; [by apply history_is_clear|intros _; apply Hreply].
  - assert (u ≠ u') by congruence. unfold reset.
    apply preserves_bind; [by apply history_is_clear|intros _; apply Hreply].
  - apply Hreply.
  - assert (Hne : u ≠ u') by congruence. unfold handle_file.
    apply preserves_bind; [by apply history_is_ensure|]. intros _.
    apply preserves_user_file_body; try done. intros r. by apply history_is_append.
  - assert (Hne : u ≠ u') by congruence. unfold handle_text.
    apply preserves_bind; [by apply history_is_ensure|]. intros _.
    apply preserves_user_text_body; try done. intros r. by apply history_is_append.
Qed.

Lemma handle_other_user ev u' w :
  event_user ev ≠ Some u' →
  user_conversations (handle_event w ev) !! u' = user_conversations w !! u'.
Proof.
  intros Hev.
  by apply (handler_other_user ev u' (user_conversations w !! u') Hev w).
Qed.

Lemma extends_append u h r : preserves (extends u h) (append_record u r).
Proof.
  intros w [tail Hw]. unfold extends. rewrite (append_record_run _ _ _ _ Hw).
  cbn [snd stored user_conversations]. exists (tail ++ [r]).
  by rewrite lookup_insert_eq, <- app_assoc.
Qed.

Lemma handle_own_history ev u w :
  event_user ev = Some u → clears_history ev = false →
  ∃ tail, user_conversations (handle_event w ev) !! u
          = Some (default [] (user_conversations w !! u) ++ tail).
Proof.
  intros Hev Hclr. unfold handle.
  set (h := default [] (user_conversations w !! u)).
  assert (Hreply : ∀ t, preserves (extends u h) (reply_text t)) by (by intros t w' Hw').
  assert (Hprint : ∀ t, preserves (extends u h) (print t)) by (by intros t w' Hw').
  assert (Hlog : ∀ r, preserves (extends u h) (log_request r)) by (by intros r w' Hw').
  assert (Hset : ∀ c, preserves (extends u h)
                        (set_current_model_index (c `mod` N_MODELS)))
    by (by intros c w' Hw').
  destruct (ensure_history_run u w) as (w1 & Hens & _ & _ & _ & _ & Hu & _).
  fold h in Hu.
  assert (H1 : extends u h w1) by (exists []; by rewrite app_nil_r).
  change (extends u h (handler SYSTEM_PROMPT create download read_excel read_csv ev w).2).
  destruct ev as [u0|u0| |u0 d|u0 t]; cbn [handler event_user clears_history] in *;
    try discriminate; assert (u0 = u) as -> by congruence.
  - unfold handle_file. unfold mbind at 1, M_bind at 1, bind at 1. rewrite Hens.
    apply preserves_user_file_body; try done. intros r. apply extends_append.
  - unfold handle_text. unfold mbind at 1, M_bind at 1, bind at 1. rewrite Hens.
    apply preserves_user_text_body; try done. intros r. apply extends_append.
Qed.

End Histories.

(** A handler touches only the history of the user the event comes from:
    every other user's entry in the conversation mapping, present or absent,
    is left exactly as it was; the models command touches none. *)
Theorem handlers_isolate_users
    (SYSTEM_PROMPT : pystr) (create : nat → Request → Outcome (option pystr))
    (download : Document → Outcome (list Byte.byte))
    (read_excel read_csv : list Byte.byte → Outcome DataFrame)
    (ev : Event) (other : Z) (w : World) :
  event_user ev ≠ Some other →
  user_conversations (handle SYSTEM_PROMPT create download read_excel read_csv w ev)
    !! other
  = user_conversations w !! other.
Proof. apply handle_other_user. Qed.

Lemma handlers_isolate_users_witness :
  user_conversations
    (handle [] (flaky 0) fetch_ok no_table no_table initial (TextReceived 1 (py "hi")))
    !! 2
  = user_conversations initial !! 2.
Proof.
  apply (handlers_isolate_users [] (flaky 0) fetch_ok no_table no_table
           (TextReceived 1 (py "hi")) 2 initial).
  intros E. discriminate E.
Defined.

(** Histories only grow under the two message handlers and the models
    command: after a file or a text event, or the models command, every
    user's history is the one from before with records added at the end
    (none for the other users), and only start and reset ever shorten
    one. *)
Theorem histories_append_only
    (SYSTEM_PROMPT : pystr) (create : nat → Request → Outcome (option pystr))
    (download : Document → Outcome (list Byte.byte))
    (read_excel read_csv : list Byte.byte → Outcome DataFrame)
    (ev : Event) (u : Z) (w : World) :
  clears_history ev = false →
  ∃ tail,
    default [] (user_conversations
                  (handle SYSTEM_PROMPT create download read_excel read_csv w ev) !! u)
    = default [] (user_conversations w !! u) ++ tail.
Proof.
  intros Hclr. destruct (decide (event_user ev = Some u)) as [Hev|Hev].
  - destruct (handle_own_history SYSTEM_PROMPT create download read_excel read_csv
                ev u w Hev Hclr) as [tail ->].
    by exists tail.
  - rewrite (handle_other_user SYSTEM_PROMPT create download read_excel read_csv
               ev u w Hev).
    exists []. by rewrite app_nil_r.
Qed.

Lemma histories_append_only_witness :
  ∃ tail,
    default [] (user_conversations
                  (handle [] (flaky 0) fetch_ok no_table no_table initial
                          (TextReceived 1 (py "hi"))) !! 1)
    = default [] (user_conversations initial !! 1) ++ tail.
Proof.
  apply (histories_append_only [] (flaky 0) fetch_ok no_table no_table
           (TextReceived 1 (py "hi")) 1 initial).
  reflexivity.
Defined.

(** ** The two message handlers, end to end *)

Section Outcomes.
Variable SYSTEM_PROMPT : pystr.
Variable create : nat → Request → Outcome (option pystr).
Variable download : Document → Outcome (list Byte.byte).
Variable read_excel read_csv : list Byte.byte → Outcome DataFrame.

(** The end of both handlers, from the call of the models on: the call, the
    delivery, and the report sent by the [except] branch.  There are three
    ways it can go, told apart by what the models answer. *)
Lemma answer_then_report u line (report : pystr → pystr) h w :
  cursor_ok w →
  user_conversations w !! u = Some h →
  let final :=
    (match answer SYSTEM_PROMPT create u line w with
     | (Ok a, w4) => (Ok a, w4)
     | (Exn e, w4) => reply_text (report e) w4
     end).2 in
  let outcome := λ i : nat,
    create (length (requests w) + i)%nat
      (mk_request SYSTEM_PROMPT
         (model_at ((current_model_index w + Z.of_nat i) `mod` N_MODELS)) h) in
  (∃ K reply,
     (K < length MODELS)%nat
     ∧ (∀ i, (i < K)%nat → ∃ e, outcome i = Exn e)
     ∧ outcome K = Ok (Some reply)
     ∧ user_conversations final !! u
       = Some (h ++ [{| role := assistant; content := Some reply |}])
     ∧ sent final = sent w ++ chunks reply)
  ∨ (∃ K,
       (K < length MODELS)%nat
       ∧ (∀ i, (i < K)%nat → ∃ e, outcome i = Exn e)
       ∧ outcome K = Ok None
       ∧ user_conversations final !! u
         = Some (h ++ [{| role := assistant; content := None |}])
       ∧ sent final = sent w ++ [report NO_LEN])
  ∨ (∃ e,
       (∀ i, (i < length MODELS)%nat → ∃ e', outcome i = Exn e')
       ∧ outcome (length MODELS - 1)%nat = Exn e
       ∧ user_conversations final !! u = Some h
       ∧ sent final = sent w ++ [report (all_models_failed e)]).
Proof.
  intros Hc Hh final outcome.
  assert (Hans : answer SYSTEM_PROMPT create u line w =
            match call_ai_with_fallback SYSTEM_PROMPT create h w with
            | (Ok (assistant_message, used_model), w2) =>
              deliver u line assistant_message used_model w2
            | (Exn e, w2) => (Exn e, w2)
            end).
  { unfold answer, get_history, get_world.
    unfold mbind, M_bind, bind. rewrite Hh. unfold ret.
    destruct (call_ai_with_fallback _ _ _ _) as [[[a m]|e] w2]; reflexivity. }
  destruct (call_cases SYSTEM_PROMPT create h w Hc)
    as [(K & [reply|] & w1 & HK & Hfail & Hok & Hrun & _ & Hconv & Hsent)
       |(e & w1 & Hall & Hlast & Hrun & _ & Hconv & Hsent)];
    rewrite Hrun in Hans; subst final; rewrite Hans.
  - left. exists K, reply.
    assert (Hh1 : user_conversations w1 !! u = Some h) by (by rewrite Hconv).
    destruct (deliver_run u line reply
                (model_at ((current_model_index w + Z.of_nat K) `mod` N_MODELS))
                h w1 Hh1)
      as (w' & -> & _ & _ & Hconv' & Hsent' & _).
    cbn [snd]. rewrite Hconv', Hsent', Hsent, lookup_insert_eq.
    split_and!; done.
  - right. left. exists K.
    assert (Hh1 : user_conversations w1 !! u = Some h) by (by rewrite Hconv).
    rewrite (deliver_none _ _ _ _ _ Hh1). unfold reply_text, NO_LEN.
    cbn [snd user_conversations sent stored]. rewrite lookup_insert_eq, Hsent.
    split_and!; done.
  - right. right. exists e. unfold reply_text.
    cbn [snd user_conversations sent]. rewrite Hconv, Hsent.
    split_and!; done.
Qed.

Lemma handle_text_cases u t w :
  cursor_ok w →
  let h := default [] (user_conversations w !! u) in
  let record := {| role := user; content := Some t |} in
  let w' := (handle_text SYSTEM_PROMPT create u t w).2 in
  let outcome := λ i : nat,
    create (length (requests w) + i)%nat
      (mk_request SYSTEM_PROMPT
         (model_at ((current_model_index w + Z.of_nat i) `mod` N_MODELS))
         (h ++ [record])) in
  (∃ K reply,
     (K < length MODELS)%nat
     ∧ (∀ i, (i < K)%nat → ∃ e, outcome i = Exn e)
     ∧ outcome K = Ok (Some reply)
     ∧ user_conversations w' !! u
       = Some (h ++ [record; {| role := assistant; content := Some reply |}])
     ∧ sent w' = sent w ++ TEXT_NOTICE :: chunks reply)
  ∨ (∃ K,
       (K < length MODELS)%nat
       ∧ (∀ i, (i < K)%nat → ∃ e, outcome i = Exn e)
       ∧ outcome K = Ok None
       ∧ user_conversations w' !! u
         = Some (h ++ [record; {| role := assistant; content := None |}])
       ∧ sent w' = sent w ++ [TEXT_NOTICE; text_error NO_LEN])
  ∨ (∃ e,
       (∀ i, (i < length MODELS)%nat → ∃ e', outcome i = Exn e')
       ∧ outcome (length MODELS - 1)%nat = Exn e
       ∧ user_conversations w' !! u = Some (h ++ [record])
       ∧ sent w' = sent w ++ [TEXT_NOTICE; text_error (all_models_failed e)]).
Proof.
  intros Hc h record w' outcome.
  destruct (ensure_history_run u w)
    as (w1 & Hens & Hcur & Hreq & Hsent1 & _ & Hu & _ & _).
  fold h in Hu.
  set (w3 := replied (stored w1 u (h ++ [record])) [TEXT_NOTICE]).
  assert (Hrun : handle_text SYSTEM_PROMPT create u t w =
            match answer SYSTEM_PROMPT create u (py "✅ Ответ от модели: ") w3 with
            | (Ok a, w4) => (Ok a, w4)
            | (Exn e, w4) => reply_text (text_error e) w4
            end).
  { unfold handle_text. unfold mbind at 1, M_bind at 1, bind at 1. rewrite Hens.
    unfold mbind at 1, M_bind at 1, bind at 1.
    rewrite (append_record_run _ _ h) by done.
    subst w3 record. unfold text_error, stored, replied, TEXT_NOTICE, try_except.
    unfold mbind at 1, M_bind at 1, bind at 1. unfold reply_text at 1.
    cbn [current_model_index user_conversations requests sent printed].
    reflexivity. }
  assert (Hc3 : cursor_ok w3) by (unfold cursor_ok; subst w3; cbn; by rewrite Hcur).
  assert (Hh3 : user_conversations w3 !! u = Some (h ++ [record]))
    by (subst w3; cbn; apply lookup_insert_eq).
  assert (Hs3 : sent w3 = sent w ++ [TEXT_NOTICE]) by (subst w3; cbn; by rewrite Hsent1).
  assert (Hr3 : requests w3 = requests w) by (subst w3; cbn; exact Hreq).
  assert (Hi3 : current_model_index w3 = current_model_index w)
    by (subst w3; cbn; exact Hcur).
  pose proof (answer_then_report u (py "✅ Ответ от модели: ") text_error
                (h ++ [record]) w3 Hc3 Hh3) as Hcases.
  cbv zeta in Hcases. rewrite <- Hrun, Hr3, Hi3, Hs3 in Hcases.
  fold w' in Hcases. subst outcome.
  destruct Hcases as [(K & reply & HK & Hfail & Hok & Hconv & Hsent)
                     |[(K & HK & Hfail & Hok & Hconv & Hsent)
                      |(e & Hall & Hlast & Hconv & Hsent)]].
  - left. exists K, reply. rewrite <- !app_assoc in Hconv, Hsent.
    split_and!; done.
  - right. left. exists K. rewrite <- !app_assoc in Hconv, Hsent.
    split_and!; done.
  - right. right. exists e. rewrite <- !app_assoc in Hsent.
    split_and!; done.
Qed.

(** The format dispatch of [handle_file], once the file is downloaded and
    has a name. *)
Lemma handle_file_loaded u d name file_bytes w :
  download d = Ok file_bytes →
  file_name d = Some name →
  handle_file SYSTEM_PROMPT create download read_excel read_csv u d w =
  try_except
    (match loaded_by read_excel read_csv name file_bytes with
     | Some (Ok df) => analyse_table SYSTEM_PROMPT create u name df
     | Some (Exn e) => raise e
     | None => reply_text UNSUPPORTED
     end)
    (λ e, reply_text (file_error e))
    (ensure_history u w).2.
Proof.
  intros Hdl Hname.
  destruct (ensure_history_run u w) as (w1 & Hens & _).
  unfold handle_file. unfold mbind at 1, M_bind at 1, bind at 1. rewrite Hens.
  cbn [snd].
  unfold try_except, lift, py_or, name_endswith, loaded_by, raise,
    mbind, M_bind, bind, mret, M_ret, ret.
  rewrite Hdl, Hname. cbn [default]. unfold id, file_error.
  destruct (endswith name (py ".xlsx")), (endswith name (py ".xls")),
    (endswith name (py ".csv")); cbn [orb];
    destruct (read_excel file_bytes), (read_csv file_bytes); reflexivity.
Qed.

Lemma render_preview_run filename df columns w :
  labels_as_strings 0 (df_columns df) = Ok columns →
  render_preview filename df w = (Ok (preview_of filename df columns), w).
Proof.
  intros Hcols. unfold render_preview, join_labels, preview_of.
  unfold mbind, M_bind, bind, mret, M_ret, ret. rewrite Hcols.
  by rewrite <- !app_assoc.
Qed.

Lemma render_preview_fails filename df e w :
  labels_as_strings 0 (df_columns df) = Exn e →
  render_preview filename df w = (Exn e, w).
Proof.
  intros Hcols. unfold render_preview, join_labels.
  unfold mbind, M_bind, bind. by rewrite Hcols.
Qed.

Lemma handle_file_cases u d name file_bytes df columns w :
  cursor_ok w →
  download d = Ok file_bytes →
  file_name d = Some name →
  loaded_by read_excel read_csv name file_bytes = Some (Ok df) →
  labels_as_strings 0 (df_columns df) = Ok columns →
  let h := default [] (user_conversations w !! u) in
  let record := file_record (preview_of name df columns) in
  let w' := (handle_file SYSTEM_PROMPT create download read_excel read_csv u d w).2 in
  let outcome := λ i : nat,
    create (length (requests w) + i)%nat
      (mk_request SYSTEM_PROMPT
         (model_at ((current_model_index w + Z.of_nat i) `mod` N_MODELS))
         (h ++ [record])) in
  (∃ K reply,
     (K < length MODELS)%nat
     ∧ (∀ i, (i < K)%nat → ∃ e, outcome i = Exn e)
     ∧ outcome K = Ok (Some reply)
     ∧ user_conversations w' !! u
       = Some (h ++ [record; {| role := assistant; content := Some reply |}])
     ∧ sent w' = sent w ++ FILE_NOTICE :: chunks reply)
  ∨ (∃ K,
       (K < length MODELS)%nat
       ∧ (∀ i, (i < K)%nat → ∃ e, outcome i = Exn e)
       ∧ outcome K = Ok None
       ∧ user_conversations w' !! u
         = Some (h ++ [record; {| role := assistant; content := None |}])
       ∧ sent w' = sent w ++ [FILE_NOTICE; file_error NO_LEN])
  ∨ (∃ e,
       (∀ i, (i < length MODELS)%nat → ∃ e', outcome i = Exn e')
       ∧ outcome (length MODELS - 1)%nat = Exn e
       ∧ user_conversations w' !! u = Some (h ++ [record])
       ∧ sent w' = sent w ++ [FILE_NOTICE; file_error (all_models_failed e)]).
Proof.
  intros Hc Hdl Hname Hload Hcols h record w' outcome.
  destruct (ensure_history_run u w)
    as (w1 & Hens & Hcur & Hreq & Hsent1 & _ & Hu & _ & _).
  fold h in Hu.
  set (w3 := stored (replied w1 [FILE_NOTICE]) u (h ++ [record])).
  assert (Hrun : handle_file SYSTEM_PROMPT create download read_excel read_csv u d w =
            match answer SYSTEM_PROMPT create u (py "✅ Анализ выполнен моделью: ") w3 with
            | (Ok a, w4) => (Ok a, w4)
            | (Exn e, w4) => reply_text (file_error e) w4
            end).
  { rewrite (handle_file_loaded u d name file_bytes) by done.
    rewrite Hload, Hens. cbn [snd].
    unfold try_except, analyse_table. unfold mbind at 1, M_bind at 1, bind at 1.
    rewrite (render_preview_run _ _ columns) by done.
    unfold mbind at 1, M_bind at 1, bind at 1. unfold reply_text at 1.
    unfold mbind at 1, M_bind at 1, bind at 1.
    rewrite (append_record_run _ _ h) by exact Hu.
    subst w3 record. unfold file_record, file_error, stored, replied, FILE_NOTICE.
    cbn [current_model_index user_conversations requests sent printed].
    reflexivity. }
  assert (Hc3 : cursor_ok w3) by (unfold cursor_ok; subst w3; cbn; by rewrite Hcur).
  assert (Hh3 : user_conversations w3 !! u = Some (h ++ [record]))
    by (subst w3; cbn; apply lookup_insert_eq).
  assert (Hs3 : sent w3 = sent w ++ [FILE_NOTICE]) by (subst w3; cbn; by rewrite Hsent1).
  assert (Hr3 : requests w3 = requests w) by (subst w3; cbn; exact Hreq).
  assert (Hi3 : current_model_index w3 = current_model_index w)
    by (subst w3; cbn; exact Hcur).
  pose proof (answer_then_report u (py "✅ Анализ выполнен моделью: ") file_error
                (h ++ [record]) w3 Hc3 Hh3) as Hcases.
  cbv zeta in Hcases. rewrite <- Hrun, Hr3, Hi3, Hs3 in Hcases.
  fold w' in Hcases. subst outcome.
  destruct Hcases as [(K & reply & HK & Hfail & Hok & Hconv & Hsent)
                     |[(K & HK & Hfail & Hok & Hconv & Hsent)
                      |(e & Hall & Hlast & Hconv & Hsent)]].
  - left. exists K, reply. rewrite <- !app_assoc in Hconv, Hsent.
    split_and!; done.
  - right. left. exists K. rewrite <- !app_assoc in Hconv, Hsent.
    split_and!; done.
  - right. right. exists e. rewrite <- !app_assoc in Hsent.
    split_and!; done.
Qed.

End Outcomes.

(** ** The preview of a table *)

Lemma labels_as_strings_all (names : list pystr) (i : nat) :
  labels_as_strings i (LStr <$> names) = Ok names.
Proof.
  revert i. induction names as [|s names IH]; intros i; [reflexivity|].
  cbn [fmap list_fmap labels_as_strings]. fold (fmap LStr names).
  by rewrite IH.
Qed.

Lemma occurs_in_head (x y post : pystr) : occurs_in (x ++ y) (x ++ y ++ post).
Proof. exists [], post. by rewrite app_nil_l, <- app_assoc. Qed.

Lemma rows_word : py " строк, " = py " строк" ++ py ", ".
Proof. vm_compute. reflexivity. Qed.

(** When every column label of the parsed table is a string, the preview is
    rendered and it holds the file name, the number of rows followed by the
    word for rows, the number of columns followed by the word for columns,
    every column name, and at its end the whole text of [df.to_string()]. *)
Theorem preview_contents (filename : pystr) (df : DataFrame) (names : list pystr)
    (w : World) :
  df_columns df = LStr <$> names →
  ∃ data_preview,
    render_preview filename df w = (Ok data_preview, w)
    ∧ occurs_in filename data_preview
    ∧ occurs_in (str_of_nat (df_len df) ++ py " строк") data_preview
    ∧ occurs_in (str_of_nat (length names) ++ py " колонок") data_preview
    ∧ (∀ c, c ∈ names → occurs_in c data_preview)
    ∧ ∃ before, data_preview = before ++ df_to_string df.
Proof.
  intros Hcols. exists (preview_of filename df names).
  assert (Hlen : length (df_columns df) = length names)
    by (by rewrite Hcols, length_fmap).
  split_and!.
  - apply render_preview_run. rewrite Hcols. apply labels_as_strings_all.
  - unfold preview_of. by eexists _, _.
  - unfold preview_of. rewrite rows_word.
    do 5 apply occurs_in_app_r. rewrite <- (app_assoc (py " строк")).
    apply occurs_in_head.
  - unfold preview_of. rewrite Hlen.
    do 7 apply occurs_in_app_r. apply occurs_in_head.
  - intros c Hc. unfold preview_of.
    do 12 apply occurs_in_app_r. apply occurs_in_app_l. by apply join_occurs.
  - unfold preview_of.
    exists (py "Файл: " ++ filename ++ nl ++ nl
              ++ py "Размер: " ++ str_of_nat (df_len df) ++ py " строк, "
              ++ str_of_nat (length (df_columns df)) ++ py " колонок" ++ nl ++ nl
              ++ py "Колонки: " ++ join (py ", ") names ++ nl ++ nl
              ++ py "Данные:" ++ nl).
    by rewrite <- !app_assoc.
Qed.

Lemma preview_contents_witness :
  ∃ data_preview,
    render_preview (py "data.xlsx") text_header_table initial = (Ok data_preview, initial)
    ∧ occurs_in (py "data.xlsx") data_preview
    ∧ occurs_in (str_of_nat 10 ++ py " строк") data_preview
    ∧ occurs_in (str_of_nat 3 ++ py " колонок") data_preview
    ∧ (∀ c, c ∈ [py "a"; py "b"; py "c"] → occurs_in c data_preview)
    ∧ ∃ before, data_preview = before ++ py "a b c".
Proof.
  apply (preview_contents (py "data.xlsx") text_header_table
           [py "a"; py "b"; py "c"] initial).
  reflexivity.
Defined.

(** ** The file handler: failures before anything is stored *)

Section FileFailures.
Variable SYSTEM_PROMPT : pystr.
Variable create : nat → Request → Outcome (option pystr).
Variable download : Document → Outcome (list Byte.byte).
Variable read_excel read_csv : list Byte.byte → Outcome DataFrame.

Local Abbreviation file_handler :=
  (handle_file SYSTEM_PROMPT create download read_excel read_csv).

Lemma handle_file_download_fails u d e w :
  download d = Exn e →
  file_handler u d w = reply_text (file_error e) (ensure_history u w).2.
Proof.
  intros Hdl. destruct (ensure_history_run u w) as (w1 & Hens & _).
  unfold handle_file. unfold mbind at 1, M_bind at 1, bind at 1. rewrite Hens.
  cbn [snd]. unfold try_except, lift, file_error, mbind, M_bind, bind.
  rewrite Hdl. reflexivity.
Qed.

Lemma handle_file_no_name u d file_bytes w :
  download d = Ok file_bytes →
  file_name d = None →
  file_handler u d w =
  reply_text (file_error (py "'NoneType' object has no attribute 'endswith'"))
             (ensure_history u w).2.
Proof.
  intros Hdl Hname. destruct (ensure_history_run u w) as (w1 & Hens & _).
  unfold handle_file. unfold mbind at 1, M_bind at 1, bind at 1. rewrite Hens.
  cbn [snd].
  unfold try_except, lift, py_or, name_endswith, file_error, raise,
    mbind, M_bind, bind.
  rewrite Hdl, Hname. reflexivity.
Qed.

Lemma handle_file_parse_fails u d name file_bytes e w :
  download d = Ok file_bytes →
  file_name d = Some name →
  loaded_by read_excel read_csv name file_bytes = Some (Exn e) →
  file_handler u d w = reply_text (file_error e) (ensure_history u w).2.
Proof.
  intros Hdl Hname Hload.
  rewrite (handle_file_loaded _ _ _ _ _ u d name file_bytes) by done.
  rewrite Hload. reflexivity.
Qed.

Lemma handle_file_labels_fail u d name file_bytes df e w :
  download d = Ok file_bytes →
  file_name d = Some name →
  loaded_by read_excel read_csv name file_bytes = Some (Ok df) →
  labels_as_strings 0 (df_columns df) = Exn e →
  file_handler u d w = reply_text (file_error e) (ensure_history u w).2.
Proof.
  intros Hdl Hname Hload Hcols.
  rewrite (handle_file_loaded _ _ _ _ _ u d name file_bytes) by done.
  rewrite Hload. unfold try_except, analyse_table.
  unfold mbind at 1, M_bind at 1, bind at 1.
  rewrite (render_preview_fails _ _ e) by done. reflexivity.
Qed.

Lemma handle_file_no_parser u d name file_bytes w :
  download d = Ok file_bytes →
  file_name d = Some name →
  loaded_by read_excel read_csv name file_bytes = None →
  file_handler u d w = reply_text UNSUPPORTED (ensure_history u w).2.
Proof.
  intros Hdl Hname Hload.
  rewrite (handle_file_loaded _ _ _ _ _ u d name file_bytes) by done.
  rewrite Hload. reflexivity.
Qed.

End FileFailures.

(** When the file handler fails before the user record is stored (the
    download raises, the document has no name, the selected parser raises,
    or a column label is not a string), all it does after making sure the
    user has a history is to send one message, the failure report with the
    description of the error: no record is stored and no model is asked. *)
Theorem file_failures_reported
    (SYSTEM_PROMPT : pystr) (create : nat → Request → Outcome (option pystr))
    (download : Document → Outcome (list Byte.byte))
    (read_excel read_csv : list Byte.byte → Outcome DataFrame)
    (user_id : Z) (document : Document) (w : World) :
  let result :=
    handle_file SYSTEM_PROMPT create download read_excel read_csv user_id document w in
  let w1 := (ensure_history user_id w).2 in
  (∀ e, download document = Exn e → result = reply_text (file_error e) w1)
  ∧ (∀ file_bytes,
       download document = Ok file_bytes →
       file_name document = None →
       result = reply_text
                  (file_error (py "'NoneType' object has no attribute 'endswith'")) w1)
  ∧ (∀ file_bytes name e,
       download document = Ok file_bytes →
       file_name document = Some name →
       loaded_by read_excel read_csv name file_bytes = Some (Exn e) →
       result = reply_text (file_error e) w1)
  ∧ (∀ file_bytes name df e,
       download document = Ok file_bytes →
       file_name document = Some name →
       loaded_by read_excel read_csv name file_bytes = Some (Ok df) →
       labels_as_strings 0 (df_columns df) = Exn e →
       result = reply_text (file_error e) w1).
Proof.
  intros result w1. subst result w1. split_and!.
  - intros e. apply handle_file_download_fails.
  - intros file_bytes. apply handle_file_no_name.
  - intros file_bytes name e. apply handle_file_parse_fails.
  - intros file_bytes name df e. apply handle_file_labels_fail.
Qed.

Lemma file_failures_reported_witness :
  handle_file [] (flaky 0) fetch_fails no_table no_table 1 data_xlsx initial
  = reply_text (file_error (py "Timed out")) (ensure_history 1 initial).2.
Proof.
  apply (proj1 (file_failures_reported [] (flaky 0) fetch_fails no_table no_table
                  1 data_xlsx initial) (py "Timed out")).
  reflexivity.
Defined.

(** The parser is chosen by the suffix of the file name alone: for a name
    ending in [.xlsx] or [.xls] the handler does the same whatever
    [read_csv] would do, and for any other name it does the same whatever
    [read_excel] would do. *)
Theorem parser_chosen_by_suffix
    (SYSTEM_PROMPT : pystr) (create : nat → Request → Outcome (option pystr))
    (download : Document → Outcome (list Byte.byte))
    (read_excel read_csv other : list Byte.byte → Outcome DataFrame)
    (user_id : Z) (document : Document) (name : pystr) (w : World) :
  file_name document = Some name →
  (endswith name (py ".xlsx") || endswith name (py ".xls") = true →
   handle_file SYSTEM_PROMPT create download read_excel read_csv user_id document w
   = handle_file SYSTEM_PROMPT create download read_excel other user_id document w)
  ∧ (endswith name (py ".xlsx") || endswith name (py ".xls") = false →
     handle_file SYSTEM_PROMPT create download read_excel read_csv user_id document w
     = handle_file SYSTEM_PROMPT create download other read_csv user_id document w).
Proof.
  intros Hname. destruct (download document) as [file_bytes|e] eqn:Hdl.
  - split; intros Hsuffix;
      rewrite !(handle_file_loaded _ _ download _ _ user_id document name file_bytes)
        by done;
      unfold loaded_by; rewrite Hsuffix; reflexivity.
  - split; intros _;
      by rewrite !(handle_file_download_fails _ _ download _ _ user_id document e).
Qed.

Lemma parser_chosen_by_suffix_witness :
  handle_file [] (flaky 0) fetch_ok no_table no_table 1 data_xlsx initial
  = handle_file [] (flaky 0) fetch_ok no_table (λ _, Ok text_header_table)
                1 data_xlsx initial.
Proof.
  apply (proj1 (parser_chosen_by_suffix [] (flaky 0) fetch_ok no_table no_table
                  (λ _, Ok text_header_table) 1 data_xlsx (py "data.xlsx") initial
                  eq_refl)).
  vm_compute. reflexivity.
Defined.

(** ** The two stages of the file handler *)

Section Stages.
Variable SYSTEM_PROMPT : pystr.
Variable create : nat → Request → Outcome (option pystr).
Variable download : Document → Outcome (list Byte.byte).
Variable read_excel read_csv : list Byte.byte → Outcome DataFrame.

Local Abbreviation file_handler :=
  (handle_file SYSTEM_PROMPT create download read_excel read_csv).

(** When the handler stops before storing anything, all it does after
    making sure the user has a history is to send the one message. *)
Lemma handle_file_stops u d message w :
  preview_or_reply download read_excel read_csv d = inl message →
  file_handler u d w = reply_text message (ensure_history u w).2.
Proof.
  unfold preview_or_reply. intros H.
  destruct (download d) as [file_bytes|e] eqn:Hdl.
  2:{ assert (message = file_error e) as -> by congruence.
      by apply handle_file_download_fails. }
  destruct (file_name d) as [name|] eqn:Hname.
  2:{ assert (message
              = file_error (py "'NoneType' object has no attribute 'endswith'"))
        as -> by congruence.
      by apply (handle_file_no_name _ _ _ _ _ u d file_bytes). }
  destruct (loaded_by read_excel read_csv name file_bytes) as [[df|e]|] eqn:Hload.
  - destruct (labels_as_strings 0 (df_columns df)) as [columns|e] eqn:Hcols;
      [discriminate H|].
    assert (message = file_error e) as -> by congruence.
    by apply (handle_file_labels_fail _ _ _ _ _ u d name file_bytes df).
  - assert (message = file_error e) as -> by congruence.
    by apply (handle_file_parse_fails _ _ _ _ _ u d name file_bytes).
  - assert (message = UNSUPPORTED) as -> by congruence.
    by apply (handle_file_no_parser _ _ _ _ _ u d name file_bytes).
Qed.

(** When the preview is rendered, the record that holds it is stored after
    the old history, and the models are asked about the two together. *)
Lemma handle_file_stores u d data_preview w :
  cursor_ok w →
  preview_or_reply download read_excel read_csv d = inr data_preview →
  let h := default [] (user_conversations w !! u) in
  let record := file_record data_preview in
  let w' := (file_handler u d w).2 in
  let outcome := λ i : nat,
    create (length (requests w) + i)%nat
      (mk_request SYSTEM_PROMPT
         (model_at ((current_model_index w + Z.of_nat i) `mod` N_MODELS))
         (h ++ [record])) in
  (∃ K reply,
     (K < length MODELS)%nat
     ∧ (∀ i, (i < K)%nat → ∃ e, outcome i = Exn e)
     ∧ outcome K = Ok (Some reply)
     ∧ user_conversations w' !! u
       = Some (h ++ [record; {| role := assistant; content := Some reply |}])
     ∧ sent w' = sent w ++ FILE_NOTICE :: chunks reply)
  ∨ (∃ K,
       (K < length MODELS)%nat
       ∧ (∀ i, (i < K)%nat → ∃ e, outcome i = Exn e)
       ∧ outcome K = Ok None
       ∧ user_conversations w' !! u
         = Some (h ++ [record; {| role := assistant; content := None |}])
       ∧ sent w' = sent w ++ [FILE_NOTICE; file_error NO_LEN])
  ∨ (∃ e,
       (∀ i, (i < length MODELS)%nat → ∃ e', outcome i = Exn e')
       ∧ outcome (length MODELS - 1)%nat = Exn e
       ∧ user_conversations w' !! u = Some (h ++ [record])
       ∧ sent w' = sent w ++ [FILE_NOTICE; file_error (all_models_failed e)]).
Proof.
  intros Hc H. unfold preview_or_reply in H.
  destruct (download d) as [file_bytes|e] eqn:Hdl; [|discriminate H].
  destruct (file_name d) as [name|] eqn:Hname; [|discriminate H].
  destruct (loaded_by read_excel read_csv name file_bytes) as [[df|e]|] eqn:Hload;
    [|discriminate H|discriminate H].
  destruct (labels_as_strings 0 (df_columns df)) as [columns|e] eqn:Hcols;
    [|discriminate H].
  assert (data_preview = preview_of name df columns) as -> by congruence.
  by apply (handle_file_cases SYSTEM_PROMPT create download read_excel read_csv
              u d name file_bytes df columns w).
Qed.

(** What any path through the file handler leaves in the caller's history:
    the old records and then nothing, or the preview record, possibly
    followed by the assistant's record. *)
Lemma handle_file_history u d w :
  cursor_ok w →
  let h := default [] (user_conversations w !! u) in
  let w' := (file_handler u d w).2 in
  match preview_or_reply download read_excel read_csv d with
  | inl _ => user_conversations w' !! u = Some h
  | inr data_preview =>
    ∃ tail,
      user_conversations w' !! u = Some (h ++ file_record data_preview :: tail)
      ∧ (tail = [] ∨ ∃ content, tail = [{| role := assistant; content := content |}])
  end.
Proof.
  intros Hc h w'.
  destruct (preview_or_reply download read_excel read_csv d)
    as [message|data_preview] eqn:Hstage.
  - subst w'. rewrite (handle_file_stops u d message w Hstage).
    destruct (ensure_history_run u w) as (w1 & -> & _ & _ & _ & _ & Hu & _).
    exact Hu.
  - destruct (handle_file_stores u d data_preview w Hc Hstage)
      as [(K & reply & _ & _ & _ & Hconv & _)
         |[(K & _ & _ & _ & Hconv & _)|(e & _ & _ & Hconv & _)]].
    + eexists. split; [exact Hconv|]. right. by eexists.
    + eexists. split; [exact Hconv|]. right. by eexists.
    + exists []. split; [exact Hconv|]. by left.
Qed.

End Stages.

(** ** The two message handlers in a reachable world *)




(** ** What the stored records are *)

Section WellFormed.
Variable SYSTEM_PROMPT : pystr.
Variable create : nat → Request → Outcome (option pystr).
Variable download : Document → Outcome (list Byte.byte).
Variable read_excel read_csv : list Byte.byte → Outcome DataFrame.

Lemma well_formed_old w u :
  histories_well_formed w →
  Forall well_formed (default [] (user_conversations w !! u)).
Proof.
  intros Hw. destruct (user_conversations w !! u) as [h|] eqn:E; [|by constructor].
  by apply (Hw u).
Qed.

Lemma well_formed_user t : well_formed {| role := user; content := Some t |}.
Proof. left. split; [done|by eexists]. Qed.

Lemma well_formed_assistant c : well_formed {| role := assistant; content := c |}.
Proof. by right. Qed.

Lemma handler_well_formed ev w :
  cursor_ok w → histories_well_formed w →
  histories_well_formed
    (handler SYSTEM_PROMPT create download read_excel read_csv ev w).2.
Proof.
  intros Hc Hw u0 h0 Hh0.
  destruct (decide (event_user ev = Some u0)) as [Hev|Hev].
  2:{ apply (Hw u0).
      rewrite <- (handle_other_user SYSTEM_PROMPT create download read_excel read_csv
                    ev u0 w Hev). exact Hh0. }
  pose proof (well_formed_old w u0 Hw) as Hold.
  destruct ev as [u|u| |u d|u t]; cbn [handler event_user] in *;
    try discriminate; assert (u = u0) as -> by congruence.
  - rewrite start_run in Hh0. cbn [snd replied stored user_conversations] in Hh0.
    rewrite lookup_insert_eq in Hh0. assert (h0 = []) as -> by congruence.
    apply Forall_nil_2.
  - rewrite reset_run in Hh0. cbn [snd replied stored user_conversations] in Hh0.
    rewrite lookup_insert_eq in Hh0. assert (h0 = []) as -> by congruence.
    apply Forall_nil_2.
  - pose proof (handle_file_history SYSTEM_PROMPT create download read_excel read_csv
                  u0 d w Hc) as Hhist.
    cbv zeta in Hhist.
    destruct (preview_or_reply download read_excel read_csv d) as [message|data_preview].
    + rewrite Hhist in Hh0.
      assert (h0 = default [] (user_conversations w !! u0)) as -> by congruence.
      exact Hold.
    + destruct Hhist as (tail & Hconv & Htail). rewrite Hconv in Hh0.
      assert (h0 = default [] (user_conversations w !! u0)
                     ++ file_record data_preview :: tail) as -> by congruence.
      apply Forall_app. split; [done|].
      destruct Htail as [->|[content ->]];
        repeat first [ apply Forall_nil_2 | apply Forall_cons_2
                     | apply well_formed_user | apply well_formed_assistant ].
  - destruct (handle_text_cases SYSTEM_PROMPT create u0 t w Hc)
      as [(K & reply & _ & _ & _ & Hconv & _)
         |[(K & _ & _ & _ & Hconv & _)|(e & _ & _ & Hconv & _)]];
      rewrite Hconv in Hh0;
      match type of Hh0 with Some ?x = Some _ => assert (h0 = x) as -> by congruence end;
      apply Forall_app; (split; [done|]);
      repeat first [ apply Forall_nil_2 | apply Forall_cons_2
                   | apply well_formed_user | apply well_formed_assistant ].
Qed.

Lemma run_well_formed evs w :
  cursor_ok w → histories_well_formed w →
  histories_well_formed
    (run SYSTEM_PROMPT create download read_excel read_csv evs w).
Proof.
  revert w. induction evs as [|ev evs IH]; intros w Hc Hw; [done|].
  cbn [run foldl]. apply IH.
  - by apply cursor_ok_handler.
  - by apply handler_well_formed.
Qed.

End WellFormed.

(** In every world the program can reach, every record of every stored
    history is a user record with a text or an assistant record: the system
    instruction is never stored, and a user record never lacks its text.
    (The content of an assistant record is whatever the model returned,
    and so can be [None].) *)
Theorem stored_records_well_formed
    (SYSTEM_PROMPT : pystr) (create : nat → Request → Outcome (option pystr))
    (download : Document → Outcome (list Byte.byte))
    (read_excel read_csv : list Byte.byte → Outcome DataFrame)
    (evs : list Event) (user_id : Z) (h : list Message) :
  user_conversations
    (run SYSTEM_PROMPT create download read_excel read_csv evs initial) !! user_id
  = Some h →
  Forall (λ m, (role m = user ∧ is_Some (content m)) ∨ role m = assistant) h.
Proof.
  apply (run_well_formed SYSTEM_PROMPT create download read_excel read_csv evs initial).
  - apply initial_cursor_ok.
  - intros u h0 Hh0. cbn [initial user_conversations] in Hh0.
    by rewrite lookup_empty in Hh0.
Qed.

Lemma stored_records_well_formed_witness :
  Forall (λ m, (role m = user ∧ is_Some (content m)) ∨ role m = assistant)
         [ {| role := user; content := Some (py "hi") |};
           {| role := assistant; content := Some (py "ok") |} ].
Proof.
  apply (stored_records_well_formed [] (flaky 0) fetch_ok no_table no_table
           [TextReceived 1 (py "hi")] 1).
  vm_compute. reflexivity.
Defined.

(** A response without content is stored: with a model that answers
    without content, one text message leaves the user with an assistant
    record whose content is [None], and sends the failure report. *)
Example none_content_is_stored :
  let w' := (handle_text [] silent 1 (py "hi") initial).2 in
  user_conversations w' !! 1
  = Some [ {| role := user; content := Some (py "hi") |};
           {| role := assistant; content := None |} ]
  ∧ sent w' = [TEXT_NOTICE; text_error NO_LEN].
Proof. split; vm_compute; reflexivity. Qed.

(** ** Retried events *)



